(** * dataGen.py: the bridge from the production tables to the portal store

    A shallow embedding of [src/dataGen.py] (the script
    [bridge_to_portal_db.py]) and the properties its specification states.

    Modelling conventions.
    - Python [str] is Rocq's [string], one [ascii] per character; the
      character tables below ([isspace], [lower_char], the decimal digits)
      are Python's for the code points below 256.
    - A Python value read from a source row is a [pyval].  A [float] is an
      IEEE binary64 ([PrimFloat.float]).
    - An exception is a value of [exn]; code that can raise returns a
      [result].
    - The clock ([date.today], [datetime.utcnow]), the UUID generator and
      [datetime.fromisoformat] (whose grammar depends on the interpreter
      version) are the components of a [World]; code that uses them runs in
      the monad [M]. *)

From Stdlib Require Import ZArith NArith String Ascii List Bool Lia.
From Stdlib Require Import Numbers.DecimalString.
From Stdlib Require Numbers.DecimalZ Numbers.DecimalPos.
From Stdlib Require Import Floats.PrimFloat Floats.SpecFloat Floats.FloatOps.
From stdpp Require Import base option list gmap strings.

Local Open Scope Z_scope.
Local Open Scope string_scope.

(** ** Text: the [str] methods the script calls *)

Module Text.

Definition code (c : ascii) : N := N_of_ascii c.

Definition in_range (lo hi : N) (c : ascii) : bool :=
  ((lo <=? code c) && (code c <=? hi))%N.

(** [str.isspace] on one character: TAB..CR, FS..US, space, NEL, NBSP. *)
Definition isspace (c : ascii) : bool :=
  in_range 9 13 c || in_range 28 32 c || (code c =? 133)%N || (code c =? 160)%N.

Definition isdigit (c : ascii) : bool := in_range 48 57 c.

Definition digit_value (c : ascii) : Z := Z.of_N (code c) - 48.

Fixpoint lstrip (s : string) : string :=
  match s with
  | String c r => if isspace c then lstrip r else s
  | EmptyString => EmptyString
  end.

Fixpoint rstrip (s : string) : string :=
  match s with
  | String c r =>
      match rstrip r with
      | EmptyString => if isspace c then EmptyString else String c EmptyString
      | r' => String c r'
      end
  | EmptyString => EmptyString
  end.

(** [s.strip()] *)
Definition strip (s : string) : string := rstrip (lstrip s).

(** [s.startswith(p)] *)
Definition startswith (s p : string) : bool := String.prefix p s.

Fixpoint zeros (n : nat) : string :=
  match n with
  | O => EmptyString
  | S k => String "0" (zeros k)
  end.

Definition is_sign (c : ascii) : bool := (code c =? 43)%N || (code c =? 45)%N.

(** [s.zfill(width)]: pad with zeros on the left, after a leading sign. *)
Definition zfill (width : nat) (s : string) : string :=
  let fill := (width - String.length s)%nat in
  match s with
  | String c r => if is_sign c then String c (zeros fill +:+ r) else zeros fill +:+ s
  | EmptyString => zeros fill
  end.

(** [s[:n]] for a literal [n >= 0] *)
Definition slice_to (n : nat) (s : string) : string := String.substring 0 n s.

Definition lower_char (c : ascii) : ascii :=
  if in_range 65 90 c || (in_range 192 222 c && negb (code c =? 215)%N)
  then ascii_of_N (code c + 32)
  else c.

(** [s.lower()] *)
Fixpoint lower (s : string) : string :=
  match s with
  | String c r => String (lower_char c) (lower r)
  | EmptyString => EmptyString
  end.

(** [s.replace("Z", "+00:00")] *)
Fixpoint replace_Z (s : string) : string :=
  match s with
  | String c r => if (code c =? 90)%N then "+00:00" +:+ replace_Z r else String c (replace_Z r)
  | EmptyString => EmptyString
  end.

(** [str(z)] for an [int] *)
Definition of_Z (z : Z) : string := NilZero.string_of_int (Z.to_int z).

(** ["%0<width>d" % z] for [0 <= z] *)
Definition pad (width : nat) (z : Z) : string :=
  let s := of_Z z in zeros (width - String.length s) +:+ s.

End Text.

(** ** Values *)

Record date := mkdate { year : Z; month : Z; day : Z }.

(** [utcoffset] is [None] for a naive datetime, else the offset from UTC in
    microseconds. *)
Record datetime := mkdatetime {
  dt_date : date;
  hour : Z; minute : Z; second : Z; microsecond : Z;
  utcoffset : option Z }.

(** The values a column of a source row can hold.  [str] of a float is the
    shortest decimal that reads back as the same float, and [str] of a
    mapping prints its contents; neither algorithm is re-implemented here:
    a [VFloat] and a [VDict] carry the text [str] prints for them, and
    every statement below holds whatever that text is.  An [int] is
    unbounded; the interpreter's limit on the length of the conversions
    between [int] and text (4300 digits by default), far above what a
    column holds, is not modelled. *)
Inductive pyval :=
| VNone
| VBool (b : bool)
| VInt (z : Z)
| VFloat (f : float) (text : string)
| VStr (s : string)
| VDate (d : date)
| VDateTime (t : datetime)
| VDict (items : list (string * string)) (text : string).

(** The empty mapping literal [{}]. *)
Definition empty_dict : pyval := VDict [] "{}".

Inductive exn := KeyError | ValueError | TypeError | OverflowError | RuntimeError.

Inductive result (A : Type) :=
| Ok (a : A)
| Raise (e : exn).
Arguments Ok {A} a.
Arguments Raise {A} e.

Definition is_ok {A} (r : result A) : bool :=
  match r with Ok _ => true | Raise _ => false end.

(** ** Built-in functions *)

Module Py.
Import Text.

(** [bool(v)] *)
Definition truthy (v : pyval) : bool :=
  match v with
  | VNone => false
  | VBool b => b
  | VInt z => negb (z =? 0)%Z
  | VFloat f _ => negb (PrimFloat.eqb f 0%float)
  | VStr s => negb (String.eqb s "")
  | VDate _ | VDateTime _ => true
  | VDict items _ => match items with [] => false | _ => true end
  end.

(** [a or b] *)
Definition or_ (a b : pyval) : pyval := if truthy a then a else b.

(** [date.isoformat()] *)
Definition isoformat_date (d : date) : string :=
  pad 4 (year d) +:+ "-" +:+ pad 2 (month d) +:+ "-" +:+ pad 2 (day d).

Definition isoformat_offset (off : Z) : string :=
  let a := Z.abs off in
  let us := a mod 1000000 in
  let s := a / 1000000 in
  (if (off <? 0)%Z then "-" else "+") +:+ pad 2 (s / 3600) +:+ ":" +:+ pad 2 (s / 60 mod 60)
  +:+ (if ((s mod 60 =? 0) && (us =? 0))%Z then "" else ":" +:+ pad 2 (s mod 60))
  +:+ (if (us =? 0)%Z then "" else "." +:+ pad 6 us).

(** [datetime.isoformat(sep=" ")], which is [str] of a datetime *)
Definition isoformat_datetime (t : datetime) : string :=
  isoformat_date (dt_date t) +:+ " "
  +:+ pad 2 (hour t) +:+ ":" +:+ pad 2 (minute t) +:+ ":" +:+ pad 2 (second t)
  +:+ (if (microsecond t =? 0)%Z then "" else "." +:+ pad 6 (microsecond t))
  +:+ match utcoffset t with Some off => isoformat_offset off | None => "" end.

(** [str(v)] *)
Definition str (v : pyval) : string :=
  match v with
  | VNone => "None"
  | VBool b => if b then "True" else "False"
  | VInt z => of_Z z
  | VFloat _ text => text
  | VStr s => s
  | VDate d => isoformat_date d
  | VDateTime t => isoformat_datetime t
  | VDict _ text => text
  end.

(** [v[:n]]: only text can be sliced; the other values raise ([TypeError],
    which for a mapping became [KeyError] in Python 3.12: no statement
    below names the exception of a slice). *)
Definition slice (n : nat) (v : pyval) : result string :=
  match v with
  | VStr s => Ok (slice_to n s)
  | _ => Raise TypeError
  end.

(** *** Numeric conversions *)

(** The characters [int] and [float] skip around a number: [str.isspace]
    without FS..US. *)
Definition is_numeric_space (c : ascii) : bool :=
  in_range 9 13 c || (code c =? 32)%N || (code c =? 133)%N || (code c =? 160)%N.

Fixpoint numeric_lstrip (s : string) : string :=
  match s with
  | String c r => if is_numeric_space c then numeric_lstrip r else s
  | EmptyString => EmptyString
  end.

Fixpoint numeric_rstrip (s : string) : string :=
  match s with
  | String c r =>
      match numeric_rstrip r with
      | EmptyString => if is_numeric_space c then EmptyString else String c EmptyString
      | r' => String c r'
      end
  | EmptyString => EmptyString
  end.

(** After a digit: [(["_"] digit)*]; the digits read and the remaining text. *)
Fixpoint digits_tail (s : string) : list Z * string :=
  match s with
  | String c r =>
      if isdigit c then
        let (ds, rest) := digits_tail r in (digit_value c :: ds, rest)
      else if (code c =? 95)%N then
        match r with
        | String d r' =>
            if isdigit d then
              let (ds, rest) := digits_tail r' in (digit_value d :: ds, rest)
            else ([], s)
        | EmptyString => ([], s)
        end
      else ([], s)
  | EmptyString => ([], s)
  end.

(** [digitpart ::= digit (["_"] digit)*] *)
Definition digitpart (s : string) : option (list Z * string) :=
  match s with
  | String c r =>
      if isdigit c then let (ds, rest) := digits_tail r in Some (digit_value c :: ds, rest)
      else None
  | EmptyString => None
  end.

Definition digits_to_Z (ds : list Z) : Z := fold_left (fun acc d => 10 * acc + d) ds 0.

(** An optional sign: whether it is a minus, and the remaining text. *)
Definition sign (s : string) : bool * string :=
  match s with
  | String c r => if (code c =? 45)%N then (true, r) else if (code c =? 43)%N then (false, r) else (false, s)
  | EmptyString => (false, s)
  end.

(** [int(s)] for text, base 10. *)
Definition int_of_string (s : string) : result Z :=
  let (neg, body) := sign (numeric_rstrip (numeric_lstrip s)) in
  match digitpart body with
  | Some (ds, EmptyString) => Ok (if neg then - digits_to_Z ds else digits_to_Z ds)
  | _ => Raise ValueError
  end.

(** [number ::= [digitpart] "." digitpart | digitpart ["."]]: the integer
    digits, the fraction digits and the remaining text. *)
Definition number (s : string) : option (list Z * list Z * string) :=
  match digitpart s with
  | Some (ip, rest) =>
      match rest with
      | String c r =>
          if (code c =? 46)%N then
            match digitpart r with
            | Some (fp, rest') => Some (ip, fp, rest')
            | None => Some (ip, [], r)
            end
          else Some (ip, [], rest)
      | EmptyString => Some (ip, [], rest)
      end
  | None =>
      match s with
      | String c r =>
          if (code c =? 46)%N then
            match digitpart r with
            | Some (fp, rest') => Some ([], fp, rest')
            | None => None
            end
          else None
      | EmptyString => None
      end
  end.

(** [exponent ::= ("e" | "E") [sign] digitpart], up to the end of the text;
    no exponent is exponent 0. *)
Definition exponent (s : string) : option Z :=
  match s with
  | EmptyString => Some 0
  | String c r =>
      if (code c =? 101)%N || (code c =? 69)%N then
        let (neg, body) := sign r in
        match digitpart body with
        | Some (ds, EmptyString) => Some (if neg then - digits_to_Z ds else digits_to_Z ds)
        | _ => None
        end
      else None
  end.

(** The binary64 nearest to [m * 10 ^ e10] (ties to even) for [0 <= m]:
    an exact integer is rounded once; otherwise the quotient is taken to
    more than 64 bits with a sticky bit, and rounded once. *)
Definition round_decimal (neg : bool) (m e10 : Z) : spec_float :=
  let sgn z := if neg then - z else z in
  if (m =? 0)%Z then S754_zero neg
  else if (0 <=? e10)%Z then binary_normalize prec emax (sgn (m * 10 ^ e10)) 0 neg
  else
    let d := 10 ^ (- e10) in
    let k := Z.log2 d + 66 in
    let n := m * 2 ^ k in
    let q := n / d in
    let sticky := if (n mod d =? 0)%Z then 0 else 1 in
    binary_normalize prec emax (sgn (2 * q + sticky)) (- (k + 1)) neg.

(** [float(s)] for text. *)
Definition float_of_string (s : string) : result float :=
  let (neg, body) := sign (numeric_rstrip (numeric_lstrip s)) in
  let word := lower body in
  if String.eqb word "inf" || String.eqb word "infinity" then
    Ok (if neg then neg_infinity else infinity)
  else if String.eqb word "nan" then Ok nan
  else
    match number body with
    | Some (ip, fp, rest) =>
        match exponent rest with
        | Some e => Ok (SF2Prim (round_decimal neg (digits_to_Z (ip ++ fp)) (e - Z.of_nat (length fp))))
        | None => Raise ValueError
        end
    | None => Raise ValueError
    end.

(** [float(z)] for an [int]: the nearest binary64, or [OverflowError]. *)
Definition float_of_Z (z : Z) : result float :=
  match binary_normalize prec emax z 0 false with
  | S754_infinity _ => Raise OverflowError
  | f => Ok (SF2Prim f)
  end.

(** [int(f)] for a [float]: truncation towards zero. *)
Definition Z_of_float (f : float) : result Z :=
  match Prim2SF f with
  | S754_zero _ => Ok 0
  | S754_finite neg m e =>
      let a := Z.shiftl (Z.pos m) e in Ok (if neg then - a else a)
  | S754_infinity _ => Raise OverflowError
  | S754_nan => Raise ValueError
  end.

(** [float(v)] *)
Definition float_ (v : pyval) : result float :=
  match v with
  | VBool b => Ok (if b then 1 else 0)%float
  | VInt z => float_of_Z z
  | VFloat f _ => Ok f
  | VStr s => float_of_string s
  | VNone | VDate _ | VDateTime _ | VDict _ _ => Raise TypeError
  end.

(** [int(v)] *)
Definition int_ (v : pyval) : result Z :=
  match v with
  | VBool b => Ok (if b then 1 else 0)
  | VInt z => Ok z
  | VFloat f _ => Z_of_float f
  | VStr s => int_of_string s
  | VNone | VDate _ | VDateTime _ | VDict _ _ => Raise TypeError
  end.

End Py.

(** ** The world, and the monad of code that reads it *)

(** [today i] and [utcnow i] are what the clock answers at its [i]-th
    reading, [uuid4_hex i] is [uuid4().hex] of the [i]-th UUID drawn;
    [clock_reads] and [uuid_draws] count the readings and draws so far. *)
Record World := mkWorld {
  fromisoformat : string -> option datetime;
  today : nat -> date;
  utcnow : nat -> datetime;
  uuid4_hex : nat -> string;
  clock_reads : nat;
  uuid_draws : nat }.

Definition tick (w : World) : World :=
  mkWorld (fromisoformat w) (today w) (utcnow w) (uuid4_hex w) (S (clock_reads w)) (uuid_draws w).

Definition drawn (w : World) : World :=
  mkWorld (fromisoformat w) (today w) (utcnow w) (uuid4_hex w) (clock_reads w) (S (uuid_draws w)).

(** State and exceptions: an exception keeps the world reached so far. *)
Definition M (A : Type) : Type := World -> result A * World.

#[global] Instance M_ret : MRet M := fun A a w => (Ok a, w).

#[global] Instance M_bind : MBind M := fun A B f m w =>
  match m w with
  | (Ok a, w') => f a w'
  | (Raise e, w') => (Raise e, w')
  end.

(** A pure computation that can raise. *)
Definition lift {A} (r : result A) : M A := fun w => (r, w).

(** [try: body / except Exception: handler] *)
Definition try_except {A} (body handler : M A) : M A := fun w =>
  match body w with
  | (Ok a, w') => (Ok a, w')
  | (Raise _, w') => handler w'
  end.

(** [date.today()] *)
Definition date_today : M date := fun w => (Ok (today w (clock_reads w)), tick w).

(** [datetime.utcnow()] *)
Definition datetime_utcnow : M datetime := fun w => (Ok (utcnow w (clock_reads w)), tick w).

(** [uuid4().hex] *)
Definition uuid4_hex_ : M string := fun w => (Ok (uuid4_hex w (uuid_draws w)), drawn w).

(** [datetime.fromisoformat(s)] *)
Definition datetime_fromisoformat (s : string) : M datetime := fun w =>
  match fromisoformat w s with
  | Some t => (Ok t, w)
  | None => (Raise ValueError, w)
  end.

(** ** Helpers *)

(** The instances of class [date]: dates and, by inheritance, datetimes. *)
Inductive date_obj :=
| ADate (d : date)
| ADateTime (t : datetime).

Definition is_None (v : pyval) : bool :=
  match v with VNone => true | _ => false end.

(** [isinstance(v, date)] *)
Definition date_instance (v : pyval) : option date_obj :=
  match v with
  | VDate d => Some (ADate d)
  | VDateTime t => Some (ADateTime t)
  | _ => None
  end.

(** [isinstance(v, datetime)] *)
Definition datetime_instance (v : pyval) : option datetime :=
  match v with
  | VDateTime t => Some t
  | _ => None
  end.

(** The default of [to_date]'s second parameter, [date(1990, 1, 1)]. *)
Definition default_date : date_obj := ADate (mkdate 1990 1 1).

Definition to_date (v : pyval) (default : date_obj) : M date_obj :=
  if is_None v then mret default
  else match date_instance v with
  | Some d => mret d
  | None =>
      try_except
        (t ← datetime_fromisoformat (Py.str v); mret (ADate (dt_date t)))
        (mret default)
  end.

Definition to_dt (v : pyval) (default : option datetime) : M datetime :=
  default ← match default with
            | None => datetime_utcnow
            | Some d => mret d
            end;
  if is_None v then mret default
  else match datetime_instance v with
  | Some t => mret t
  | None =>
      try_except
        (datetime_fromisoformat (Text.replace_Z (Py.str v)))
        (mret default)
  end.

Definition norm_client_id (v : pyval) : string :=
  let s := Text.strip (Py.str v) in
  if negb (Text.startswith s "C") then "C" +:+ Text.zfill 7 s
  else s.

Definition norm_case_id (v : pyval) : M string :=
  let s := if negb (is_None v) then Text.strip (Py.str v) else "" in
  if Py.truthy (VStr s) then mret s
  else h ← uuid4_hex_; mret ("CASE-" +:+ Text.slice_to 20 h).

(** ** Source rows *)

(** A row of a result set: a mapping from column names to values. *)
Abbreviation row := (gmap string pyval).

(** [r[k]] *)
Definition getitem (r : row) (k : string) : M pyval :=
  match r !! k with
  | Some v => mret v
  | None => lift (Raise KeyError)
  end.

(** [r.get(k)] *)
Definition get (r : row) (k : string) : pyval :=
  match r !! k with
  | Some v => v
  | None => VNone
  end.

(** [a or b] where [b] has an effect: [b] runs only when [a] is falsy. *)
Definition or_else (a : pyval) (b : M pyval) : M pyval :=
  if Py.truthy a then mret a else b.

(** ** Field coercions (the expressions [main] repeats for every field) *)

(** [(v or default)[:n]] *)
Definition bounded_str (v : pyval) (default : string) (n : nat) : result string :=
  Py.slice n (Py.or_ v (VStr default)).

(** [float(v or 0)] *)
Definition numeric (v : pyval) : result float := Py.float_ (Py.or_ v (VInt 0)).

(** [int(v or 0)] *)
Definition flag (v : pyval) : result Z := Py.int_ (Py.or_ v (VInt 0)).

(** [v or {}] *)
Definition mapping (v : pyval) : pyval := Py.or_ v empty_dict.

(** [to_date(v) if v else None] *)
Definition optional_date (v : pyval) : M (option date_obj) :=
  if Py.truthy v then d ← to_date v default_date; mret (Some d)
  else mret None.


(** ** Target records ([app.models.entities]) *)

(** Modelled from the spec: the entity classes of [app.models.entities] are
    imported by the script and are not among its sources.  Each is taken
    as the record of the fields [main] passes to its constructor, which
    stores them as they are; the constraints the schema of the store may
    put on them are not modelled. *)

Module Client.
Record t := mk {
  client_id : string;
  full_name : string;
  dob : date_obj;
  gender : string;
  country : string;
  city : string;
  segment : string;
  occupation : string;
  annual_income : float;
  account_open_date : date_obj;
  pep_flag : Z;
  sanctions_flag : Z;
  profile_text : pyval;
  risk_rating : string }.
End Client.

Module RiskResult.
Record t := mk {
  client_id : string;
  risk_score : float;
  rule_hits : pyval;
  model_reason : string;
  last_updated : datetime }.
End RiskResult.

Module ClientAddressHistory.
Record t := mk {
  client_id : string;
  address_line : string;
  city : string;
  country : string;
  from_date : date_obj;
  to_date : option date_obj }.
End ClientAddressHistory.

Module ClientPhoneHistory.
Record t := mk {
  client_id : string;
  phone : string;
  from_date : date_obj;
  to_date : option date_obj }.
End ClientPhoneHistory.

Module LoginActivity.
Record t := mk {
  login_id : string;
  client_id : string;
  ip_address : string;
  ip_country : string;
  status : string;
  channel : string;
  logged_in_at : datetime }.
End LoginActivity.

Module Transaction.
Record t := mk {
  tx_id : string;
  client_id : string;
  counterparty_id : string;
  tx_type : string;
  direction : string;
  amount : float;
  currency : string;
  channel : string;
  country : string;
  timestamp : datetime;
  typology_tags : pyval }.
End Transaction.

Module Case.
Record t := mk {
  case_id : string;
  client_id : string;
  status : string;
  opened_at : datetime;
  closed_at : option datetime;
  title : string }.
End Case.

Module Alert.
Record t := mk {
  alert_id : string;
  client_id : string;
  case_id : option string;
  severity : string;
  status : string;
  created_at : datetime;
  description : pyval }.
End Alert.

(** ** The transform of one row, per entity class (the loop bodies of [main]) *)

(** [Client(...)] and its [RiskResult(...)] *)
Definition transform_client (r : row) : M (Client.t * RiskResult.t) :=
  v ← getitem r "client_id";
  let cid := norm_client_id v in
  full_name ← lift (bounded_str (get r "full_name") "Unknown Client" 120);
  dob ← to_date (get r "dob") default_date;
  gender ← lift (bounded_str (get r "gender") "X" 16);
  country ← lift (bounded_str (get r "country") "Unknown" 64);
  city ← lift (bounded_str (get r "city") "Unknown" 64);
  segment ← lift (bounded_str (get r "segment") "retail" 40);
  occupation ← lift (bounded_str (get r "occupation") "unknown" 80);
  annual_income ← lift (numeric (get r "annual_income"));
  today ← date_today;
  account_open_date ← to_date (get r "account_open_date") (ADate today);
  pep_flag ← lift (flag (get r "pep_flag"));
  sanctions_flag ← lift (flag (get r "sanctions_flag"));
  let profile_text := Py.or_ (get r "profile_text") (VStr "") in
  risk_rating ← lift (bounded_str (get r "risk_rating") "Standard" 16);
  let c := Client.mk cid full_name dob gender country city segment occupation
             annual_income account_open_date pep_flag sanctions_flag
             profile_text risk_rating in
  let risk_score :=
    if Text.startswith (Text.lower (Client.risk_rating c)) "high" then 75.0%float
    else 35.0%float in
  now ← datetime_utcnow;
  let rr := RiskResult.mk cid risk_score empty_dict "Imported from production source" now in
  mret (c, rr).

(** [ClientAddressHistory(...)] *)
Definition transform_address (r : row) : M ClientAddressHistory.t :=
  v ← getitem r "client_id";
  let client_id := norm_client_id v in
  address_line ← lift (bounded_str (get r "address_line") "" 160);
  city ← lift (bounded_str (get r "city") "Unknown" 64);
  country ← lift (bounded_str (get r "country") "Unknown" 64);
  today ← date_today;
  from_date ← to_date (get r "from_date") (ADate today);
  to_date_ ← optional_date (get r "to_date");
  mret (ClientAddressHistory.mk client_id address_line city country from_date to_date_).

(** [ClientPhoneHistory(...)] *)
Definition transform_phone (r : row) : M ClientPhoneHistory.t :=
  v ← getitem r "client_id";
  let client_id := norm_client_id v in
  phone ← lift (bounded_str (get r "phone") "" 40);
  today ← date_today;
  from_date ← to_date (get r "from_date") (ADate today);
  to_date_ ← optional_date (get r "to_date");
  mret (ClientPhoneHistory.mk client_id phone from_date to_date_).

(** [LoginActivity(...)] *)
Definition transform_login (r : row) : M LoginActivity.t :=
  id ← or_else (get r "log_id")
         (h ← uuid4_hex_; mret (VStr ("LG-" +:+ Text.slice_to 24 h)));
  let login_id := Text.slice_to 40 (Py.str id) in
  v ← getitem r "client_id";
  let client_id := norm_client_id v in
  ip_address ← lift (bounded_str (get r "ip_address") "0.0.0.0" 64);
  ip_country ← lift (bounded_str (get r "ip_country") "UNK" 8);
  status ← lift (bounded_str (get r "status") "success" 16);
  channel ← lift (bounded_str (get r "channel") "web" 24);
  logged_in_at ← to_dt (get r "logged_in_at") None;
  mret (LoginActivity.mk login_id client_id ip_address ip_country status channel logged_in_at).

(** [Transaction(...)] *)
Definition transform_transaction (r : row) : M Transaction.t :=
  id ← or_else (get r "tx_id") (h ← uuid4_hex_; mret (VStr h));
  let tx_id := Text.slice_to 32 (Py.str id) in
  v ← getitem r "client_id";
  let client_id := norm_client_id v in
  let counterparty_id :=
    Text.slice_to 24 (Py.str (Py.or_ (get r "counterparty_id") (VStr "CP000000"))) in
  tx_type ← lift (bounded_str (get r "tx_type") "wire" 16);
  direction ← lift (bounded_str (get r "direction") "outgoing" 16);
  amount ← lift (numeric (get r "amount"));
  currency ← lift (bounded_str (get r "currency") "USD" 8);
  channel ← lift (bounded_str (get r "channel") "web" 24);
  country ← lift (bounded_str (get r "country") "Unknown" 64);
  timestamp ← to_dt (get r "timestamp") None;
  let typology_tags := mapping (get r "typology_tags") in
  mret (Transaction.mk tx_id client_id counterparty_id tx_type direction amount
          currency channel country timestamp typology_tags).

(** [Case(...)] *)
Definition transform_case (r : row) : M Case.t :=
  case_id ← norm_case_id (get r "case_id");
  v ← getitem r "client_id";
  let client_id := norm_client_id v in
  status ← lift (bounded_str (get r "status") "Open" 20);
  opened_at ← to_dt (get r "opened_at") None;
  closed_at ← (if Py.truthy (get r "closed_at")
               then t ← to_dt (get r "closed_at") None; mret (Some t)
               else mret None);
  title ← lift (bounded_str (get r "title") "Imported case" 180);
  mret (Case.mk case_id client_id status opened_at closed_at title).

(** [Alert(...)] *)
Definition transform_alert (r : row) : M Alert.t :=
  id ← or_else (get r "alert_id")
         (h ← uuid4_hex_; mret (VStr ("AL-" +:+ Text.slice_to 22 h)));
  let alert_id := Text.slice_to 40 (Py.str id) in
  v ← getitem r "client_id";
  let client_id := norm_client_id v in
  case_id ← (if Py.truthy (get r "case_id")
             then c ← norm_case_id (get r "case_id"); mret (Some c)
             else mret None);
  severity ← lift (bounded_str (get r "severity") "Medium" 16);
  status ← lift (bounded_str (get r "status") "Open" 16);
  created_at ← to_dt (get r "created_at") None;
  let description := Py.or_ (get r "description") (VStr "Imported alert") in
  mret (Alert.mk alert_id client_id case_id severity status created_at description).

(** ** The two stores *)

(** The source store: the rows each [extract_*] query returns, the order
    and columns of the result set taken as given. *)
Record Source := mkSource {
  client_information : list row;
  address : list row;
  phone : list row;
  ip_log : list row;
  transactions : list row;
  case_ : list row;
  alert : list row }.

Definition extract_clients (src : Source) : list row := client_information src.
Definition extract_addresses (src : Source) : list row := address src.
Definition extract_phones (src : Source) : list row := phone src.
Definition extract_ip_logs (src : Source) : list row := ip_log src.
Definition extract_transactions (src : Source) : list row := transactions src.
Definition extract_cases (src : Source) : list row := case_ src.
Definition extract_alerts (src : Source) : list row := alert src.

(** The target store: one table per entity class, an unconstrained list of
    records (the store has no foreign keys, the specification says; its
    other constraints, and failures of its I/O, are outside this model). *)
Record Target := mkTarget {
  clients : list Client.t;
  risk_results : list RiskResult.t;
  client_address_history : list ClientAddressHistory.t;
  client_phone_history : list ClientPhoneHistory.t;
  login_activity : list LoginActivity.t;
  transactions_ : list Transaction.t;
  cases : list Case.t;
  alerts : list Alert.t }.

(** A session on the target: what is committed, and what the open
    transaction sees. *)
Record Session := mkSession { committed : Target; working : Target }.

Module Db.

Definition on_working (f : Target -> Target) (db : Session) : Session :=
  mkSession (committed db) (f (working db)).

(** [db.query(X).delete()] *)
Definition delete_Alert := on_working (fun t =>
  mkTarget (clients t) (risk_results t) (client_address_history t) (client_phone_history t)
           (login_activity t) (transactions_ t) (cases t) []).
Definition delete_Case := on_working (fun t =>
  mkTarget (clients t) (risk_results t) (client_address_history t) (client_phone_history t)
           (login_activity t) (transactions_ t) [] (alerts t)).
Definition delete_LoginActivity := on_working (fun t =>
  mkTarget (clients t) (risk_results t) (client_address_history t) (client_phone_history t)
           [] (transactions_ t) (cases t) (alerts t)).
Definition delete_Transaction := on_working (fun t =>
  mkTarget (clients t) (risk_results t) (client_address_history t) (client_phone_history t)
           (login_activity t) [] (cases t) (alerts t)).
Definition delete_ClientPhoneHistory := on_working (fun t =>
  mkTarget (clients t) (risk_results t) (client_address_history t) []
           (login_activity t) (transactions_ t) (cases t) (alerts t)).
Definition delete_ClientAddressHistory := on_working (fun t =>
  mkTarget (clients t) (risk_results t) [] (client_phone_history t)
           (login_activity t) (transactions_ t) (cases t) (alerts t)).
Definition delete_RiskResult := on_working (fun t =>
  mkTarget (clients t) [] (client_address_history t) (client_phone_history t)
           (login_activity t) (transactions_ t) (cases t) (alerts t)).
Definition delete_Client := on_working (fun t =>
  mkTarget [] (risk_results t) (client_address_history t) (client_phone_history t)
           (login_activity t) (transactions_ t) (cases t) (alerts t)).

(** [db.bulk_save_objects(objs)], per class of the objects *)
Definition save_Client (objs : list Client.t) := on_working (fun t =>
  mkTarget (clients t ++ objs) (risk_results t) (client_address_history t)
           (client_phone_history t) (login_activity t) (transactions_ t) (cases t) (alerts t)).
Definition save_RiskResult (objs : list RiskResult.t) := on_working (fun t =>
  mkTarget (clients t) (risk_results t ++ objs) (client_address_history t)
           (client_phone_history t) (login_activity t) (transactions_ t) (cases t) (alerts t)).
Definition save_ClientAddressHistory (objs : list ClientAddressHistory.t) := on_working (fun t =>
  mkTarget (clients t) (risk_results t) (client_address_history t ++ objs)
           (client_phone_history t) (login_activity t) (transactions_ t) (cases t) (alerts t)).
Definition save_ClientPhoneHistory (objs : list ClientPhoneHistory.t) := on_working (fun t =>
  mkTarget (clients t) (risk_results t) (client_address_history t)
           (client_phone_history t ++ objs) (login_activity t) (transactions_ t) (cases t) (alerts t)).
Definition save_LoginActivity (objs : list LoginActivity.t) := on_working (fun t =>
  mkTarget (clients t) (risk_results t) (client_address_history t)
           (client_phone_history t) (login_activity t ++ objs) (transactions_ t) (cases t) (alerts t)).
Definition save_Transaction (objs : list Transaction.t) := on_working (fun t =>
  mkTarget (clients t) (risk_results t) (client_address_history t)
           (client_phone_history t) (login_activity t) (transactions_ t ++ objs) (cases t) (alerts t)).
Definition save_Case (objs : list Case.t) := on_working (fun t =>
  mkTarget (clients t) (risk_results t) (client_address_history t)
           (client_phone_history t) (login_activity t) (transactions_ t) (cases t ++ objs) (alerts t)).
Definition save_Alert (objs : list Alert.t) := on_working (fun t =>
  mkTarget (clients t) (risk_results t) (client_address_history t)
           (client_phone_history t) (login_activity t) (transactions_ t) (cases t) (alerts t ++ objs)).

(** [db.commit()] *)
Definition commit (db : Session) : Session := mkSession (working db) (working db).

(** [db.close()]: what was not committed is rolled back. *)
Definition close (db : Session) : Session := mkSession (committed db) (committed db).

End Db.

(** ** The load *)

(** The monad of [main]: the world and the session on the target. *)
Definition Run (A : Type) : Type := World * Session -> result A * (World * Session).

#[global] Instance Run_ret : MRet Run := fun A a s => (Ok a, s).

#[global] Instance Run_bind : MBind Run := fun A B f m s =>
  match m s with
  | (Ok a, s') => f a s'
  | (Raise e, s') => (Raise e, s')
  end.

Definition run {A} (m : M A) : Run A := fun '(w, db) =>
  let (r, w') := m w in (r, (w', db)).

Definition db_do (f : Session -> Session) : Run unit := fun '(w, db) => (Ok tt, (w, f db)).

Definition raise {A} (e : exn) : Run A := fun s => (Raise e, s).

(** [try: body / finally: cleanup] *)
Definition try_finally {A} (body : Run A) (cleanup : Run unit) : Run A := fun s =>
  let (r, s') := body s in
  match cleanup s' with
  | (Ok _, s'') => (r, s'')
  | (Raise e, s'') => (Raise e, s'')
  end.

(** [for r in rows: body], [acc] the lists the body appends to. *)
Fixpoint for_loop {A B} (body : A -> B -> M B) (rows : list A) (acc : B) : M B :=
  match rows with
  | [] => mret acc
  | r :: rest => acc' ← body r acc; for_loop body rest acc'
  end.

(** The loop over [clients], appending to [client_objs] and [risk_objs]. *)
Definition transform_clients (rows : list row) : M (list Client.t * list RiskResult.t) :=
  for_loop (fun r '(client_objs, risk_objs) =>
              '(c, rr) ← transform_client r;
              mret ((client_objs ++ [c])%list, (risk_objs ++ [rr])%list))
           rows ([], []).

(** The loop of every other entity class, appending to its [*_objs]. *)
Definition transform_all {B} (f : row -> M B) (rows : list row) : M (list B) :=
  for_loop (fun r objs => o ← f r; mret (objs ++ [o])%list) rows [].

(** [if objs: db.bulk_save_objects(objs); db.commit()] *)
Definition save_if_any {B} (save : list B -> Session -> Session) (objs : list B) : Run unit :=
  match objs with
  | [] => mret tt
  | _ => db_do (save objs);; db_do Db.commit
  end.

(** The body of [main]'s [try]. *)
Definition load (src : Source) : Run unit :=
  (* clear target (order matters) *)
  db_do Db.delete_Alert;;
  db_do Db.delete_Case;;
  db_do Db.delete_LoginActivity;;
  db_do Db.delete_Transaction;;
  db_do Db.delete_ClientPhoneHistory;;
  db_do Db.delete_ClientAddressHistory;;
  db_do Db.delete_RiskResult;;
  db_do Db.delete_Client;;
  db_do Db.commit;;
  let clients := extract_clients src in
  let addresses := extract_addresses src in
  let phones := extract_phones src in
  let ip_logs := extract_ip_logs src in
  let txs := extract_transactions src in
  let cases := extract_cases src in
  let alerts := extract_alerts src in
  (* clients *)
  '(client_objs, risk_objs) ← run (transform_clients clients);
  db_do (Db.save_Client client_objs);;
  db_do (Db.save_RiskResult risk_objs);;
  db_do Db.commit;;
  (* address history *)
  addr_objs ← run (transform_all transform_address addresses);
  save_if_any Db.save_ClientAddressHistory addr_objs;;
  (* phone history *)
  phone_objs ← run (transform_all transform_phone phones);
  save_if_any Db.save_ClientPhoneHistory phone_objs;;
  (* login activity *)
  login_objs ← run (transform_all transform_login ip_logs);
  save_if_any Db.save_LoginActivity login_objs;;
  (* transactions *)
  tx_objs ← run (transform_all transform_transaction txs);
  save_if_any Db.save_Transaction tx_objs;;
  (* cases *)
  case_objs ← run (transform_all transform_case cases);
  save_if_any Db.save_Case case_objs;;
  (* alerts *)
  alert_objs ← run (transform_all transform_alert alerts);
  save_if_any Db.save_Alert alert_objs;;
  mret tt.

(** [main()], given the environment variable [SOURCE_DB_URL]. *)
Definition main (SOURCE_DB_URL : option string) (src : Source) : Run unit :=
  match SOURCE_DB_URL with
  | None | Some EmptyString => raise RuntimeError
  | Some _ => try_finally (load src) (db_do Db.close)
  end.

(** A run of the script on a target store: the store it leaves. *)
Definition migrate (SOURCE_DB_URL : option string) (src : Source) (w : World) (store : Target) : Target :=
  committed (main SOURCE_DB_URL src (w, mkSession store store)).2.2.

(** The number of rows of each entity class. *)
Definition row_counts (t : Target) : list nat :=
  [ length (clients t); length (risk_results t); length (client_address_history t);
    length (client_phone_history t); length (login_activity t); length (transactions_ t);
    length (cases t); length (alerts t) ].

(** ** A concrete world and concrete rows, for the examples *)

Module Example.
Import Text.

Definition two_digits (a b : ascii) : option Z :=
  if isdigit a && isdigit b then Some (10 * digit_value a + digit_value b) else None.

Definition is_leap (y : Z) : bool :=
  ((y mod 4 =? 0) && (negb (y mod 100 =? 0) || (y mod 400 =? 0)))%Z.

Definition days_in_month (y m : Z) : Z :=
  if (m =? 2)%Z then (if is_leap y then 29 else 28)
  else if ((m =? 4) || (m =? 6) || (m =? 9) || (m =? 11))%Z then 30
  else 31.

(** A parser that reads the calendar dates [YYYY-MM-DD] and nothing else:
    the strings every version of [datetime.fromisoformat] reads alike. *)
Definition calendar_date (s : string) : option datetime :=
  match s with
  | String y1 (String y2 (String y3 (String y4 (String "-" (String m1 (String m2
      (String "-" (String d1 (String d2 EmptyString))))))))) =>
      match two_digits y1 y2, two_digits y3 y4, two_digits m1 m2, two_digits d1 d2 with
      | Some yh, Some yl, Some m, Some d =>
          let y := 100 * yh + yl in
          if ((1 <=? y) && (1 <=? m) && (m <=? 12) && (1 <=? d) && (d <=? days_in_month y m))%Z
          then Some (mkdatetime (mkdate y m d) 0 0 0 0 None)
          else None
      | _, _, _, _ => None
      end
  | _ => None
  end.

(** The clock stands at 2024-03-05 12:00:00 UTC and advances one second a
    reading; the [i]-th UUID is [hex i]. *)
Definition world (hex : nat -> string) : World :=
  mkWorld calendar_date
          (fun _ => mkdate 2024 3 5)
          (fun i => mkdatetime (mkdate 2024 3 5) 12 0 (Z.of_nat i) 0 None)
          hex 0 0.

(** Version-4 UUIDs (digit 13 is 4, digit 17 is 8) that differ in their
    last digit only. *)
Definition close_uuids (i : nat) : string :=
  "0123456789ab4cde8f0123456789abc" +:+ of_Z (Z.of_nat i mod 10).

(** Version-4 UUIDs that differ in their first digit. *)
Definition far_uuids (i : nat) : string :=
  of_Z (Z.of_nat i mod 10) +:+ "123456789ab4cde8f0123456789abcd".

(** A client row with a null name and a null date of birth. *)
Definition client_row : row :=
  <["client_id" := VStr "42"]> (<["full_name" := VNone]> (<["dob" := VNone]> ∅)).

(** The same client with text that is not a number as its income. *)
Definition bad_income_row : row := <["annual_income" := VStr "abc"]> client_row.

Definition long_name : string := string_of_list_ascii (repeat "x"%char 200).

(** The same client with a name of 200 characters. *)
Definition long_name_row : row := <["full_name" := VStr long_name]> client_row.

(** A row of a child table with nothing but its client: no identifier,
    no amount, no case. *)
Definition child_row : row := <["client_id" := VInt 7]> ∅.

(** An alert row whose [case_id] is blank text. *)
Definition blank_case_alert : row := <["case_id" := VStr " "]> child_row.

(** A case row whose [closed_at] is text that is not a timestamp. *)
Definition unparseable_close : row := <["closed_at" := VStr "n/a"]> child_row.

Definition source : Source :=
  mkSource [client_row; long_name_row] [child_row] [] [child_row]
           [child_row] [unparseable_close] [child_row; blank_case_alert].

(** A store that already holds rows: what a run over [source] left. *)
Definition stale_store : Target :=
  migrate (Some "postgresql://source") source (world close_uuids)
          (mkTarget [] [] [] [] [] [] [] []).

End Example.

(** ** Predicates of the specification *)

Fixpoint all_digits (s : string) : bool :=
  match s with
  | String c r => Text.isdigit c && all_digits r
  | EmptyString => true
  end.

(** The canonical form of a client identifier: [C] and 7 or more digits. *)
Definition canonical_client_id (s : string) : bool :=
  match s with
  | String c r => Ascii.eqb c "C" && (7 <=? String.length r)%nat && all_digits r
  | EmptyString => false
  end.

(** A value that [(v or default)[:n]] accepts: text, or anything falsy
    (which the default replaces). *)
Definition sliceable (v : pyval) : bool :=
  match v with
  | VStr _ => true
  | _ => negb (Py.truthy v)
  end.

(** A value that [float(v or 0)] accepts. *)
Definition number_ok (v : pyval) : bool := is_ok (numeric v).

(** A value that [int(v or 0)] accepts. *)
Definition flag_ok (v : pyval) : bool := is_ok (flag v).

(** The key [k] is a column of the row (its value may be null). *)
Definition has_key (r : row) (k : string) : bool :=
  match r !! k with Some _ => true | None => false end.

(** The rows each transform accepts: [client_id] is a column, the fields
    that are sliced are sliceable and the fields that are parsed as
    numbers parse.  Date and timestamp fields are not constrained. *)
Definition client_row_ok (r : row) : bool :=
  has_key r "client_id"
  && sliceable (get r "full_name") && sliceable (get r "gender")
  && sliceable (get r "country") && sliceable (get r "city")
  && sliceable (get r "segment") && sliceable (get r "occupation")
  && number_ok (get r "annual_income")
  && flag_ok (get r "pep_flag") && flag_ok (get r "sanctions_flag")
  && sliceable (get r "risk_rating").

Definition address_row_ok (r : row) : bool :=
  has_key r "client_id"
  && sliceable (get r "address_line") && sliceable (get r "city")
  && sliceable (get r "country").

Definition phone_row_ok (r : row) : bool :=
  has_key r "client_id" && sliceable (get r "phone").

Definition login_row_ok (r : row) : bool :=
  has_key r "client_id"
  && sliceable (get r "ip_address") && sliceable (get r "ip_country")
  && sliceable (get r "status") && sliceable (get r "channel").

Definition transaction_row_ok (r : row) : bool :=
  has_key r "client_id"
  && sliceable (get r "tx_type") && sliceable (get r "direction")
  && number_ok (get r "amount")
  && sliceable (get r "currency") && sliceable (get r "channel")
  && sliceable (get r "country").

Definition case_row_ok (r : row) : bool :=
  has_key r "client_id" && sliceable (get r "status") && sliceable (get r "title").

Definition alert_row_ok (r : row) : bool :=
  has_key r "client_id" && sliceable (get r "severity") && sliceable (get r "status").

(** Two worlds with the same oracles; only the counters may differ. *)
Definition same_oracles (w w' : World) : Prop :=
  fromisoformat w' = fromisoformat w /\ today w' = today w
  /\ utcnow w' = utcnow w /\ uuid4_hex w' = uuid4_hex w.

(** The value [to_date(v, default)] returns. *)
Definition coerced_date (w : World) (v : pyval) (default : date_obj) : date_obj :=
  match v with
  | VNone => default
  | VDate d => ADate d
  | VDateTime t => ADateTime t
  | _ => match fromisoformat w (Py.str v) with
         | Some t => ADate (dt_date t)
         | None => default
         end
  end.

(** The value [to_dt(v, default)] returns, [default] already resolved. *)
Definition coerced_datetime (w : World) (v : pyval) (default : datetime) : datetime :=
  match v with
  | VNone => default
  | VDateTime t => t
  | _ => match fromisoformat w (Text.replace_Z (Py.str v)) with
         | Some t => t
         | None => default
         end
  end.

(** The text [norm_case_id] keeps when it is not empty. *)
Definition case_text (v : pyval) : string :=
  if negb (is_None v) then Text.strip (Py.str v) else "".

(** The row counts a run leaves: the classes are loaded in order, up to
    the first class one of whose rows is not accepted. *)
Fixpoint counts_until_failure (stages : list (bool * nat)) : list nat :=
  match stages with
  | [] => []
  | (ok, n) :: rest =>
      if ok then n :: counts_until_failure rest
      else map (fun _ => 0%nat) stages
  end.

Definition loaded_counts (src : Source) : list nat :=
  counts_until_failure
    [ (forallb client_row_ok (client_information src), length (client_information src));
      (forallb client_row_ok (client_information src), length (client_information src));
      (forallb address_row_ok (address src), length (address src));
      (forallb phone_row_ok (phone src), length (phone src));
      (forallb login_row_ok (ip_log src), length (ip_log src));
      (forallb transaction_row_ok (transactions src), length (transactions src));
      (forallb case_row_ok (case_ src), length (case_ src));
      (forallb alert_row_ok (alert src), length (alert src)) ].

(** The row counts of the source, a risk result counted per client. *)
Definition source_counts (src : Source) : list nat :=
  [ length (client_information src); length (client_information src);
    length (address src); length (phone src); length (ip_log src);
    length (transactions src); length (case_ src); length (alert src) ].

Definition all_rows_ok (src : Source) : bool :=
  forallb client_row_ok (client_information src)
  && forallb address_row_ok (address src)
  && forallb phone_row_ok (phone src)
  && forallb login_row_ok (ip_log src)
  && forallb transaction_row_ok (transactions src)
  && forallb case_row_ok (case_ src)
  && forallb alert_row_ok (alert src).







(** A source [case_id] for which the alert loop calls [norm_case_id] and
    [norm_case_id] draws a UUID: truthy, and blank once stripped. *)
Definition draws_case_id (r : row) : bool :=
  Py.truthy (get r "case_id") && negb (Py.truthy (VStr (case_text (get r "case_id")))).

(** The positions, in the sequence of UUIDs, of those drawn for the alert
    identifiers of rows that all lack [alert_id], from position [n] on:
    each row draws one for its identifier, and then one more when it
    synthesizes a case identifier. *)
Fixpoint alert_id_draws (rows : list row) (n : nat) : list nat :=
  match rows with
  | [] => []
  | r :: rows => n :: alert_id_draws rows (n + 1 + (if draws_case_id r then 1 else 0))%nat
  end.

(** The alert identifier synthesized from the [i]-th UUID. *)
Definition alert_id_of_uuid (w : World) (i : nat) : string :=
  "AL-" +:+ Text.slice_to 22 (uuid4_hex w i).


(** A text is right-clean when [rstrip] leaves it as it is. *)
Definition rclean (s : string) : Prop := Text.rstrip s = s.

(** ** More rows *)

Module Sample.

(** The clock at noon on 2024-03-05, UUIDs that differ in their last digit. *)
Definition noon : World := Example.world Example.close_uuids.

Definition empty_store : Target := mkTarget [] [] [] [] [] [] [] [].

(** A child row that names its client by the integer 42. *)
Definition int_child : row := <["client_id" := VInt 42]> ∅.

(** A child row that names a case. *)
Definition linked : row := <["case_id" := VStr "K-9"]> Example.child_row.

(** A child row whose case is the integer 0. *)
Definition zero_case : row := <["case_id" := VInt 0]> Example.child_row.

(** Client rows whose [client_id] is null, and blank. *)
Definition null_id_row : row := <["client_id" := VNone]> ∅.
Definition blank_id_row : row := <["client_id" := VStr "  "]> ∅.

(** A client with a date of birth, and an opening date that is no date. *)
Definition dated_row : row :=
  <["dob" := VStr "1985-07-21"]> (<["account_open_date" := VStr "soon"]> Example.client_row).


(** A source whose clients are accepted and whose one address row has no
    [client_id]. *)
Definition broken_source : Source :=
  mkSource [Example.client_row; int_child] [∅] [] [] [] [] [].

End Sample.

(** The integer a decimal text denotes: an optional minus sign, then
    digits. *)
Definition read_decimal (s : string) : option Z :=
  option_map Z.of_int (NilEmpty.int_of_string s).

(** The digits of the absolute value of [z]. *)
Definition magnitude (z : Z) : Decimal.uint :=
  match z with
  | Z0 => Decimal.zero
  | Zpos p | Zneg p => Pos.to_uint p
  end.

(** [SOURCE_DB_URL] is set, and not to the empty text. *)
Definition configured (SOURCE_DB_URL : option string) : bool :=
  match SOURCE_DB_URL with
  | Some (String _ _) => true
  | _ => false
  end.

(** The client identifier a row stands for. *)
Definition row_client_id (r : row) : string := norm_client_id (get r "client_id").

(** A session with nothing uncommitted. *)
Definition settled (t : Target) : Session := mkSession t t.


(** The digits of a decimal numeral, the first one first. *)
Fixpoint uint_digits (u : Decimal.uint) : list Z :=
  match u with
  | Decimal.Nil => []
  | Decimal.D0 u => 0 :: uint_digits u
  | Decimal.D1 u => 1 :: uint_digits u
  | Decimal.D2 u => 2 :: uint_digits u
  | Decimal.D3 u => 3 :: uint_digits u
  | Decimal.D4 u => 4 :: uint_digits u
  | Decimal.D5 u => 5 :: uint_digits u
  | Decimal.D6 u => 6 :: uint_digits u
  | Decimal.D7 u => 7 :: uint_digits u
  | Decimal.D8 u => 8 :: uint_digits u
  | Decimal.D9 u => 9 :: uint_digits u
  end%Z.

(** [str] and [int] convert between integers and decimal text of at most
    4300 digits ([sys.int_info.default_max_str_digits]). *)
Definition within_str_digits (z : Z) : Prop := (Z.abs z < 10 ^ 4300)%Z.

(** * Properties *)

(** ** Text *)

Section TextFacts.
Import Text.

Lemma digit_not_space c : isdigit c = true -> isspace c = false.
Proof. destruct c as [[] [] [] [] [] [] [] []]; vm_compute; congruence. Qed.

Lemma digit_not_sign c : isdigit c = true -> is_sign c = false.
Proof. destruct c as [[] [] [] [] [] [] [] []]; vm_compute; congruence. Qed.

Lemma digit_not_C c : isdigit c = true -> c <> "C"%char.
Proof. destruct c as [[] [] [] [] [] [] [] []]; vm_compute; congruence. Qed.

Lemma append_cons c (a b : string) : String c a +:+ b = String c (a +:+ b).
Proof. reflexivity. Qed.

Lemma append_nil (b : string) : "" +:+ b = b.
Proof. reflexivity. Qed.

Lemma string_length_app (a b : string) :
  String.length (a +:+ b) = (String.length a + String.length b)%nat.
Proof.
  induction a as [|c a IH]; [reflexivity|].
  rewrite append_cons. simpl. now rewrite IH.
Qed.

Lemma length_zeros n : String.length (zeros n) = n.
Proof. induction n as [|n IH]; simpl; [reflexivity | now rewrite IH]. Qed.

Lemma all_digits_app a b : all_digits (a +:+ b) = all_digits a && all_digits b.
Proof.
  induction a as [|c a IH]; [reflexivity|].
  rewrite append_cons. simpl. rewrite IH. now rewrite andb_assoc.
Qed.

Lemma all_digits_zeros n : all_digits (zeros n) = true.
Proof. induction n as [|n IH]; simpl; [reflexivity | exact IH]. Qed.

Lemma startswith_C s : startswith s "C" = true <-> exists r, s = String "C" r.
Proof.
  unfold startswith. destruct s as [|c r].
  - split; [intros H; vm_compute in H; discriminate | intros [r H]; discriminate].
  - cbn [String.prefix]. destruct (ascii_dec "C" c) as [<-|Hne].
    + split; [eauto | destruct r; reflexivity].
    + split; [discriminate | intros [r' H]; congruence].
Qed.

Lemma startswith_C_cons r : startswith (String "C" r) "C" = true.
Proof. apply startswith_C. eauto. Qed.

Lemma rstrip_cons c r :
  rstrip (String c r) =
  match rstrip r with
  | EmptyString => if isspace c then EmptyString else String c EmptyString
  | r' => String c r'
  end.
Proof. reflexivity. Qed.

Lemma rstrip_idem s : rstrip (rstrip s) = rstrip s.
Proof.
  induction s as [|c r IH]; [reflexivity|].
  rewrite rstrip_cons. destruct (rstrip r) as [|c' r'] eqn:E.
  - destruct (isspace c) eqn:Hc; [reflexivity|].
    rewrite rstrip_cons. simpl. now rewrite Hc.
  - rewrite rstrip_cons, IH. reflexivity.
Qed.

Lemma rclean_tail c r : rclean (String c r) -> rclean r.
Proof.
  unfold rclean. rewrite rstrip_cons. destruct (rstrip r) as [|c' r'] eqn:E.
  - destruct (isspace c); [discriminate | congruence].
  - congruence.
Qed.

Lemma rclean_cons c r : rclean r -> r <> "" \/ isspace c = false -> rclean (String c r).
Proof.
  unfold rclean. intros Hr Hor. rewrite rstrip_cons, Hr.
  destruct r as [|c' r']; [|reflexivity].
  destruct Hor as [Hne | Hc]; [congruence | now rewrite Hc].
Qed.

Lemma rclean_single c : rclean (String c "") -> isspace c = false.
Proof.
  unfold rclean. rewrite rstrip_cons. simpl.
  destruct (isspace c); [discriminate | reflexivity].
Qed.

Lemma rclean_app a b : rclean a -> rclean b -> rclean (a +:+ b).
Proof.
  induction a as [|c a IH]; intros Ha Hb; [exact Hb|].
  rewrite append_cons.
  apply rclean_cons; [apply IH; [eapply rclean_tail; eauto | exact Hb]|].
  destruct a as [|c' a'].
  - rewrite append_nil. destruct b; [right; now apply rclean_single | left; discriminate].
  - left. rewrite append_cons. discriminate.
Qed.

Lemma rclean_zeros n : rclean (zeros n).
Proof.
  induction n as [|n IH]; simpl; [reflexivity|].
  apply rclean_cons; [exact IH | now right].
Qed.

Lemma rclean_digits s : all_digits s = true -> rclean s.
Proof.
  induction s as [|c r IH]; simpl; intros H; [reflexivity|].
  apply andb_true_iff in H as [Hc Hr].
  apply rclean_cons; [auto | right; now apply digit_not_space].
Qed.

Lemma rclean_strip s : rclean (strip s).
Proof. unfold rclean, strip. apply rstrip_idem. Qed.

Lemma rclean_zfill n s : rclean s -> rclean (zfill n s).
Proof.
  intros Hs. unfold zfill. destruct s as [|c r]; [apply rclean_zeros|].
  destruct (is_sign c).
  - apply rclean_cons.
    + apply rclean_app; [apply rclean_zeros | eapply rclean_tail; eauto].
    + destruct r as [|c' r']; [right; now apply rclean_single|].
      left. destruct (zeros _); [rewrite append_nil | rewrite append_cons]; discriminate.
  - apply rclean_app; [apply rclean_zeros | exact Hs].
Qed.

(** A right-clean text that starts with [C] is a fixed point of [strip]. *)
Lemma strip_C r : rclean (String "C" r) -> strip (String "C" r) = String "C" r.
Proof. intros H. unfold strip. exact H. Qed.

End TextFacts.

(** ** Client identifiers *)

Section ClientId.
Import Text.

Lemma append_nil_r (s : string) : s +:+ "" = s.
Proof.
  induction s as [|c s IH]; [reflexivity|].
  rewrite append_cons. now rewrite IH.
Qed.

Lemma digits_not_startswith_C s : all_digits s = true -> startswith s "C" = false.
Proof.
  intros H. destruct (startswith s "C") eqn:E; [|reflexivity].
  apply startswith_C in E as [r ->]. simpl in H. discriminate.
Qed.

Lemma zfill_digits n s :
  all_digits s = true -> zfill n s = zeros (n - String.length s) +:+ s.
Proof.
  intros H. unfold zfill. destruct s as [|c r].
  - now rewrite append_nil_r.
  - simpl in H. apply andb_true_iff in H as [Hc _].
    now rewrite (digit_not_sign c Hc).
Qed.

Lemma norm_client_id_startswith_C v r :
  strip (Py.str v) = String "C" r -> norm_client_id v = String "C" r.
Proof.
  intros H. unfold norm_client_id. rewrite H.
  now rewrite startswith_C_cons.
Qed.

(** Whatever the input, the result is right-clean and starts with [C]. *)
Lemma norm_client_id_shape v :
  exists r, norm_client_id v = String "C" r /\ rclean (String "C" r).
Proof.
  unfold norm_client_id. destruct (startswith (strip (Py.str v)) "C") eqn:E; simpl.
  - apply startswith_C in E as [r Hr]. exists r. rewrite Hr. split; [reflexivity|].
    rewrite <- Hr. apply rclean_strip.
  - exists (zfill 7 (strip (Py.str v))). split; [reflexivity|].
    apply rclean_cons; [apply rclean_zfill, rclean_strip | now right].
Qed.

(** C3, as the claim states it, fails: text that is not a number is padded
    and prefixed all the same, and text that starts with [C] is passed
    through unchecked. *)
Lemma norm_client_id_not_canonical :
  norm_client_id (VStr "abc") = "C0000abc" /\
  canonical_client_id (norm_client_id (VStr "abc")) = false /\
  norm_client_id (VStr "C1") = "C1" /\
  canonical_client_id (norm_client_id (VStr "C1")) = false.
Proof. repeat split; reflexivity. Qed.

(** C3 (amended): when the text of the source value, stripped, is made of
    decimal digits only, the normalized identifier is [C] followed by
    those digits, padded with zeros on the left to 7 digits when there are
    fewer; it is then [C] followed by 7 or more digits. *)
Theorem norm_client_id_numeric (v : pyval) :
  all_digits (strip (Py.str v)) = true ->
  norm_client_id v
    = "C" +:+ zeros (7 - String.length (strip (Py.str v))) +:+ strip (Py.str v)
  /\ canonical_client_id (norm_client_id v) = true.
Proof.
  intros H. unfold norm_client_id.
  rewrite (digits_not_startswith_C _ H), (zfill_digits _ _ H). simpl negb. cbv iota.
  split; [reflexivity|].
  rewrite append_cons, append_nil. unfold canonical_client_id.
  rewrite all_digits_app, all_digits_zeros, H, string_length_app, length_zeros.
  rewrite !andb_true_r. apply Nat.leb_le. lia.
Qed.

Lemma norm_client_id_numeric_witness :
  all_digits (strip (Py.str (VInt 42))) = true /\
  norm_client_id (VInt 42) = "C0000042" /\
  canonical_client_id (norm_client_id (VInt 42)) = true.
Proof.
  split; [reflexivity|].
  destruct (norm_client_id_numeric (VInt 42)) as [H1 H2]; [reflexivity|].
  split; [exact H1 | exact H2].
Defined.

(** C4: normalization is a function of its input; an identifier in
    canonical form is returned unchanged; and normalizing the result of a
    normalization returns it unchanged, so that normalizing twice is
    normalizing once. *)
Theorem norm_client_id_idempotent (v : pyval) :
  norm_client_id (VStr (norm_client_id v)) = norm_client_id v
  /\ (forall s, canonical_client_id s = true -> norm_client_id (VStr s) = s)
  /\ (forall v', v' = v -> norm_client_id v' = norm_client_id v).
Proof.
  split; [|split].
  - destruct (norm_client_id_shape v) as (r & -> & Hr).
    apply norm_client_id_startswith_C. simpl Py.str. now apply strip_C.
  - intros s Hs. destruct s as [|c r]; [discriminate|].
    unfold canonical_client_id in Hs.
    apply andb_true_iff in Hs as [Hs Hd]. apply andb_true_iff in Hs as [Hc _].
    apply Ascii.eqb_eq in Hc as ->.
    apply norm_client_id_startswith_C. simpl Py.str. apply strip_C.
    apply rclean_cons; [now apply rclean_digits | now right].
  - intros v' ->. reflexivity.
Qed.

Lemma norm_client_id_idempotent_witness :
  norm_client_id (VStr (norm_client_id (VStr " 42 "))) = norm_client_id (VStr " 42 ")
  /\ norm_client_id (VStr "C0000042") = "C0000042".
Proof.
  destruct (norm_client_id_idempotent (VStr " 42 ")) as (H1 & H2 & _).
  split; [exact H1 | apply H2; reflexivity].
Defined.

End ClientId.

(** ** The helpers and the transforms, run in a world *)

Section Monad.

Lemma to_date_run v d w : to_date v d w = (Ok (coerced_date w v d), w).
Proof.
  unfold to_date, try_except, datetime_fromisoformat, mbind, M_bind, mret, M_ret.
  destruct v; simpl; try reflexivity; destruct (fromisoformat w _); reflexivity.
Qed.

Lemma to_dt_run v w :
  to_dt v None w = (Ok (coerced_datetime (tick w) v (utcnow w (clock_reads w))), tick w).
Proof.
  unfold to_dt, try_except, datetime_fromisoformat, datetime_utcnow, mbind, M_bind, mret, M_ret.
  destruct v; simpl; try reflexivity; destruct (fromisoformat w _); reflexivity.
Qed.

Lemma norm_case_id_run v w :
  norm_case_id v w =
  if Py.truthy (VStr (case_text v)) then (Ok (case_text v), w)
  else (Ok ("CASE-" +:+ Text.slice_to 20 (uuid4_hex w (uuid_draws w))), drawn w).
Proof.
  unfold norm_case_id. fold (case_text v).
  destruct (Py.truthy (VStr (case_text v))); reflexivity.
Qed.

End Monad.

Ltac unfold_monad H :=
  unfold getitem, or_else, optional_date, date_today, datetime_utcnow, uuid4_hex_ in H;
  unfold lift, mbind, M_bind, mret, M_ret in H.

Ltac mrun H :=
  unfold_monad H;
  repeat (cbv beta iota zeta in H;
          first [ rewrite to_date_run in H
                | rewrite to_dt_run in H
                | rewrite norm_case_id_run in H
                | match type of H with
                  | context [if Py.truthy ?v then _ else _] => destruct (Py.truthy v) eqn:?
                  | context [match ?r !! ?k with _ => _ end] => destruct (r !! k) eqn:?
                  | context [match bounded_str ?v ?d ?n with _ => _ end] =>
                      destruct (bounded_str v d n) eqn:?
                  | context [match numeric ?v with _ => _ end] => destruct (numeric v) eqn:?
                  | context [match flag ?v with _ => _ end] => destruct (flag v) eqn:?
                  end ]);
  try discriminate H.

Lemma bounded_str_ok v d n : is_ok (bounded_str v d n) = sliceable v.
Proof.
  unfold bounded_str, Py.or_, sliceable.
  destruct v; simpl; try reflexivity; repeat case_match; reflexivity.
Qed.

Lemma bounded_str_sliceable v d n s : bounded_str v d n = Ok s -> sliceable v = true.
Proof. intros H. rewrite <- (bounded_str_ok v d n), H. reflexivity. Qed.

Lemma not_sliceable v d n e : bounded_str v d n = Raise e -> sliceable v = false.
Proof. intros H. rewrite <- (bounded_str_ok v d n), H. reflexivity. Qed.


Lemma numeric_ok v f : numeric v = Ok f -> number_ok v = true.
Proof. intros H. unfold number_ok. now rewrite H. Qed.

Lemma flag_is_ok v z : flag v = Ok z -> flag_ok v = true.
Proof. intros H. unfold flag_ok. now rewrite H. Qed.

Ltac row_facts :=
  repeat match goal with
  | H : bounded_str _ _ _ = Ok _ |- _ => apply bounded_str_sliceable in H
  | H : bounded_str _ _ _ = Raise _ |- _ => apply not_sliceable in H
  | H : numeric _ = Ok _ |- _ => apply numeric_ok in H
  | H : flag _ = Ok _ |- _ => apply flag_is_ok in H
  end.

Ltac solve_row_ok :=
  unfold client_row_ok, address_row_ok, phone_row_ok, login_row_ok,
    transaction_row_ok, case_row_ok, alert_row_ok, has_key;
  row_facts;
  repeat match goal with
  | H : _ !! _ = _ |- _ => rewrite H
  | H : sliceable _ = _ |- _ => rewrite H
  | H : number_ok _ = _ |- _ => rewrite H
  | H : flag_ok _ = _ |- _ => rewrite H
  end;
  reflexivity.

Ltac use_truthy :=
  repeat match goal with
  | H : Py.truthy _ = _ |- _ => rewrite H
  end.

Ltac finish := simplify_eq; use_truthy; cbn -[norm_client_id Text.slice_to Py.str];
  repeat split; eauto; try solve_row_ok; try lia.


Section Transformers.
Import Text.

Lemma transform_client_inv r w c rr w' :
  transform_client r w = (Ok (c, rr), w') ->
  client_row_ok r = true
  /\ (exists v, r !! "client_id" = Some v /\ Client.client_id c = norm_client_id v)
  /\ RiskResult.client_id rr = Client.client_id c
  /\ bounded_str (get r "full_name") "Unknown Client" 120 = Ok (Client.full_name c)
  /\ Client.dob c = coerced_date w (get r "dob") default_date
  /\ numeric (get r "annual_income") = Ok (Client.annual_income c)
  /\ Client.account_open_date c
     = coerced_date w (get r "account_open_date") (ADate (today w (clock_reads w)))
  /\ bounded_str (get r "risk_rating") "Standard" 16 = Ok (Client.risk_rating c)
  /\ RiskResult.risk_score rr
     = (if startswith (lower (Client.risk_rating c)) "high" then 75.0 else 35.0)%float
  /\ same_oracles w w'.
Proof.
  intros H. unfold transform_client in H. mrun H. all: finish.
Qed.

Lemma transform_address_inv r w a w' :
  transform_address r w = (Ok a, w') ->
  address_row_ok r = true
  /\ (exists v, r !! "client_id" = Some v
                /\ ClientAddressHistory.client_id a = norm_client_id v)
  /\ ClientAddressHistory.to_date a
     = (if Py.truthy (get r "to_date")
        then Some (coerced_date w (get r "to_date") default_date)
        else None)
  /\ same_oracles w w'.
Proof.
  intros H. unfold transform_address in H. mrun H. all: finish.
Qed.

Lemma transform_phone_inv r w a w' :
  transform_phone r w = (Ok a, w') ->
  phone_row_ok r = true
  /\ (exists v, r !! "client_id" = Some v
                /\ ClientPhoneHistory.client_id a = norm_client_id v)
  /\ ClientPhoneHistory.to_date a
     = (if Py.truthy (get r "to_date")
        then Some (coerced_date w (get r "to_date") default_date)
        else None)
  /\ same_oracles w w'.
Proof.
  intros H. unfold transform_phone in H. mrun H. all: finish.
Qed.

Lemma transform_login_inv r w a w' :
  transform_login r w = (Ok a, w') ->
  login_row_ok r = true
  /\ LoginActivity.login_id a
     = slice_to 40 (Py.str
         (if Py.truthy (get r "log_id") then get r "log_id"
          else VStr ("LG-" +:+ slice_to 24 (uuid4_hex w (uuid_draws w)))))
  /\ (exists v, r !! "client_id" = Some v /\ LoginActivity.client_id a = norm_client_id v)
  /\ same_oracles w w'.
Proof.
  intros H. unfold transform_login in H. mrun H. all: finish.
Qed.

Lemma transform_transaction_inv r w a w' :
  transform_transaction r w = (Ok a, w') ->
  transaction_row_ok r = true
  /\ Transaction.tx_id a
     = slice_to 32 (Py.str
         (if Py.truthy (get r "tx_id") then get r "tx_id"
          else VStr (uuid4_hex w (uuid_draws w))))
  /\ (exists v, r !! "client_id" = Some v /\ Transaction.client_id a = norm_client_id v)
  /\ numeric (get r "amount") = Ok (Transaction.amount a)
  /\ same_oracles w w'.
Proof.
  intros H. unfold transform_transaction in H. mrun H. all: finish.
Qed.

Lemma transform_case_inv r w a w' :
  transform_case r w = (Ok a, w') ->
  case_row_ok r = true
  /\ Case.case_id a
     = (if Py.truthy (VStr (case_text (get r "case_id")))
        then case_text (get r "case_id")
        else "CASE-" +:+ slice_to 20 (uuid4_hex w (uuid_draws w)))
  /\ (exists v, r !! "client_id" = Some v /\ Case.client_id a = norm_client_id v)
  /\ Case.closed_at a
     = (if Py.truthy (get r "closed_at")
        then Some (coerced_datetime w (get r "closed_at") (utcnow w (S (clock_reads w))))
        else None)
  /\ same_oracles w w'.
Proof.
  intros H. unfold transform_case in H. mrun H. all: finish.
Qed.

Lemma transform_alert_inv r w a w' :
  transform_alert r w = (Ok a, w') ->
  alert_row_ok r = true
  /\ Alert.alert_id a
     = slice_to 40 (Py.str
         (if Py.truthy (get r "alert_id") then get r "alert_id"
          else VStr ("AL-" +:+ slice_to 22 (uuid4_hex w (uuid_draws w)))))
  /\ (exists v, r !! "client_id" = Some v /\ Alert.client_id a = norm_client_id v)
  /\ Alert.case_id a
     = (if Py.truthy (get r "case_id") then
          Some (if Py.truthy (VStr (case_text (get r "case_id")))
                then case_text (get r "case_id")
                else "CASE-" +:+ slice_to 20
                       (uuid4_hex w (if Py.truthy (get r "alert_id")
                                     then uuid_draws w else S (uuid_draws w))))
        else None)
  /\ same_oracles w w'
  /\ (uuid_draws w <= uuid_draws w')%nat
  /\ (Py.truthy (get r "alert_id") = false -> uuid_draws w < uuid_draws w')%nat.
Proof.
  intros H. unfold transform_alert in H. mrun H. all: finish.
Qed.


Lemma numeric_raise v e : numeric v = Raise e -> number_ok v = false.
Proof. intros H. unfold number_ok. now rewrite H. Qed.

Lemma flag_raise v e : flag v = Raise e -> flag_ok v = false.
Proof. intros H. unfold flag_ok. now rewrite H. Qed.

Ltac row_not_ok :=
  repeat match goal with
  | H : numeric _ = Raise _ |- _ => apply numeric_raise in H
  | H : flag _ = Raise _ |- _ => apply flag_raise in H
  end;
  symmetry; solve_row_ok.

Lemma transform_client_is_ok r w : is_ok (transform_client r w).1 = client_row_ok r.
Proof.
  destruct (transform_client r w) as [[[c rr]|e] w'] eqn:H; simpl.
  - symmetry. now apply transform_client_inv in H.
  - unfold transform_client in H. mrun H. all: row_not_ok.
Qed.

Lemma transform_address_is_ok r w : is_ok (transform_address r w).1 = address_row_ok r.
Proof.
  destruct (transform_address r w) as [[a|e] w'] eqn:H; simpl.
  - symmetry. now apply transform_address_inv in H.
  - unfold transform_address in H. mrun H. all: row_not_ok.
Qed.

Lemma transform_phone_is_ok r w : is_ok (transform_phone r w).1 = phone_row_ok r.
Proof.
  destruct (transform_phone r w) as [[a|e] w'] eqn:H; simpl.
  - symmetry. now apply transform_phone_inv in H.
  - unfold transform_phone in H. mrun H. all: row_not_ok.
Qed.

Lemma transform_login_is_ok r w : is_ok (transform_login r w).1 = login_row_ok r.
Proof.
  destruct (transform_login r w) as [[a|e] w'] eqn:H; simpl.
  - symmetry. now apply transform_login_inv in H.
  - unfold transform_login in H. mrun H. all: row_not_ok.
Qed.

Lemma transform_transaction_is_ok r w :
  is_ok (transform_transaction r w).1 = transaction_row_ok r.
Proof.
  destruct (transform_transaction r w) as [[a|e] w'] eqn:H; simpl.
  - symmetry. now apply transform_transaction_inv in H.
  - unfold transform_transaction in H. mrun H. all: row_not_ok.
Qed.

Lemma transform_case_is_ok r w : is_ok (transform_case r w).1 = case_row_ok r.
Proof.
  destruct (transform_case r w) as [[a|e] w'] eqn:H; simpl.
  - symmetry. now apply transform_case_inv in H.
  - unfold transform_case in H. mrun H. all: row_not_ok.
Qed.

Lemma transform_alert_is_ok r w : is_ok (transform_alert r w).1 = alert_row_ok r.
Proof.
  destruct (transform_alert r w) as [[a|e] w'] eqn:H; simpl.
  - symmetry. now apply transform_alert_inv in H.
  - unfold transform_alert in H. mrun H. all: row_not_ok.
Qed.

(** A row without the column [client_id]: [r["client_id"]] raises. *)
Ltac key_error H Hnone :=
  mrun H; first [ congruence | simplify_eq; reflexivity ].

Lemma transform_client_KeyError r w :
  r !! "client_id" = None -> (transform_client r w).1 = Raise KeyError.
Proof.
  intros Hnone. destruct (transform_client r w) as [x w'] eqn:H.
  unfold transform_client in H. key_error H Hnone.
Qed.

Lemma transform_address_KeyError r w :
  r !! "client_id" = None -> (transform_address r w).1 = Raise KeyError.
Proof.
  intros Hnone. destruct (transform_address r w) as [x w'] eqn:H.
  unfold transform_address in H. key_error H Hnone.
Qed.

Lemma transform_phone_KeyError r w :
  r !! "client_id" = None -> (transform_phone r w).1 = Raise KeyError.
Proof.
  intros Hnone. destruct (transform_phone r w) as [x w'] eqn:H.
  unfold transform_phone in H. key_error H Hnone.
Qed.

Lemma transform_login_KeyError r w :
  r !! "client_id" = None -> (transform_login r w).1 = Raise KeyError.
Proof.
  intros Hnone. destruct (transform_login r w) as [x w'] eqn:H.
  unfold transform_login in H. key_error H Hnone.
Qed.

Lemma transform_transaction_KeyError r w :
  r !! "client_id" = None -> (transform_transaction r w).1 = Raise KeyError.
Proof.
  intros Hnone. destruct (transform_transaction r w) as [x w'] eqn:H.
  unfold transform_transaction in H. key_error H Hnone.
Qed.

Lemma transform_case_KeyError r w :
  r !! "client_id" = None -> (transform_case r w).1 = Raise KeyError.
Proof.
  intros Hnone. destruct (transform_case r w) as [x w'] eqn:H.
  unfold transform_case in H. key_error H Hnone.
Qed.

Lemma transform_alert_KeyError r w :
  r !! "client_id" = None -> (transform_alert r w).1 = Raise KeyError.
Proof.
  intros Hnone. destruct (transform_alert r w) as [x w'] eqn:H.
  unfold transform_alert in H. key_error H Hnone.
Qed.

End Transformers.

(** ** The loops *)

Section Loops.
Context {B : Type} (f : row -> M B).

Lemma transform_all_acc rows acc w :
  for_loop (fun r objs => o ← f r; mret (objs ++ [o])%list) rows acc w =
  match transform_all f rows w with
  | (Ok objs, w') => (Ok (acc ++ objs)%list, w')
  | (Raise e, w') => (Raise e, w')
  end.
Proof.
  unfold transform_all. revert acc w.
  induction rows as [|r rows IH]; intros acc w.
  - cbn. now rewrite app_nil_r.
  - cbn [for_loop]. unfold mbind at 1 3, M_bind. unfold mbind, M_bind, mret, M_ret.
    destruct (f r w) as [[o|e] w1]; [|reflexivity].
    rewrite (IH (acc ++ [o])%list), (IH ([] ++ [o])%list).
    destruct (for_loop _ rows [] w1) as [[objs|e] w2]; [|reflexivity].
    now rewrite <- app_assoc.
Qed.

Lemma transform_all_nil w : transform_all f [] w = (Ok [], w).
Proof. reflexivity. Qed.

Lemma transform_all_cons r rows w :
  transform_all f (r :: rows) w =
  match f r w with
  | (Ok o, w1) =>
      match transform_all f rows w1 with
      | (Ok objs, w2) => (Ok (o :: objs), w2)
      | (Raise e, w2) => (Raise e, w2)
      end
  | (Raise e, w1) => (Raise e, w1)
  end.
Proof.
  unfold transform_all at 1. cbn [for_loop]. unfold mbind at 1, M_bind.
  unfold mbind, M_bind, mret, M_ret.
  destruct (f r w) as [[o|e] w1]; [|reflexivity].
  rewrite transform_all_acc. reflexivity.
Qed.

Lemma transform_all_length rows : forall w objs w',
  transform_all f rows w = (Ok objs, w') -> length objs = length rows.
Proof.
  induction rows as [|r rows IH]; intros w objs w' H.
  - rewrite transform_all_nil in H. now simplify_eq.
  - rewrite transform_all_cons in H.
    destruct (f r w) as [[o|e] w1]; [|discriminate].
    destruct (transform_all f rows w1) as [[objs'|e] w2] eqn:E; [|discriminate].
    simplify_eq. simpl. f_equal. eauto.
Qed.

Context (ok : row -> bool) (Hok : forall r w, is_ok (f r w).1 = ok r).

Lemma transform_all_is_ok rows : forall w,
  is_ok (transform_all f rows w).1 = forallb ok rows.
Proof.
  induction rows as [|r rows IH]; intros w; [reflexivity|].
  rewrite transform_all_cons. simpl forallb.
  rewrite <- (Hok r w), <- (IH (f r w).2).
  destruct (f r w) as [[o|e] w1]; [|reflexivity]. simpl.
  destruct (transform_all f rows w1) as [[objs|e] w2]; reflexivity.
Qed.

End Loops.

Lemma transform_clients_acc rows : forall cs rs w,
  for_loop (fun r '(client_objs, risk_objs) =>
              '(c, rr) ← transform_client r;
              mret ((client_objs ++ [c])%list, (risk_objs ++ [rr])%list))
           rows (cs, rs) w =
  match transform_clients rows w with
  | (Ok (cs', rs'), w') => (Ok ((cs ++ cs')%list, (rs ++ rs')%list), w')
  | (Raise e, w') => (Raise e, w')
  end.
Proof.
  unfold transform_clients.
  induction rows as [|r rows IH]; intros cs rs w.
  - cbn. now rewrite !app_nil_r.
  - cbn [for_loop]. unfold mbind at 1 3, M_bind. unfold mbind, M_bind, mret, M_ret.
    destruct (transform_client r w) as [[[c rr]|e] w1]; [|reflexivity].
    rewrite (IH (cs ++ [c])%list), (IH ([] ++ [c])%list).
    destruct (for_loop _ rows ([], []) w1) as [[[cs' rs']|e] w2]; [|reflexivity].
    now rewrite <- !app_assoc.
Qed.

Lemma transform_clients_cons r rows w :
  transform_clients (r :: rows) w =
  match transform_client r w with
  | (Ok (c, rr), w1) =>
      match transform_clients rows w1 with
      | (Ok (cs, rs), w2) => (Ok (c :: cs, rr :: rs), w2)
      | (Raise e, w2) => (Raise e, w2)
      end
  | (Raise e, w1) => (Raise e, w1)
  end.
Proof.
  unfold transform_clients at 1. cbn [for_loop]. unfold mbind at 1, M_bind.
  unfold mbind, M_bind, mret, M_ret.
  destruct (transform_client r w) as [[[c rr]|e] w1]; [|reflexivity].
  rewrite transform_clients_acc. reflexivity.
Qed.

Section Outcome.
Context {B : Type} (f : row -> M B) (ok : row -> bool).
Context (Hok : forall r w, is_ok (f r w).1 = ok r).

Lemma transform_all_outcome rows w :
  exists w',
    (forallb ok rows = true /\
     exists objs, transform_all f rows w = (Ok objs, w') /\ length objs = length rows)
    \/ (forallb ok rows = false /\ exists e, transform_all f rows w = (Raise e, w')).
Proof.
  pose proof (transform_all_is_ok f ok Hok rows w) as H.
  destruct (transform_all f rows w) as [[objs|e] w'] eqn:E; simpl in H; exists w'.
  - left. split; [auto|]. exists objs. split; [reflexivity|].
    eapply transform_all_length; eauto.
  - right. split; [auto|]. eauto.
Qed.

End Outcome.

Lemma transform_clients_length rows : forall w cs rs w',
  transform_clients rows w = (Ok (cs, rs), w') ->
  length cs = length rows /\ length rs = length rows.
Proof.
  induction rows as [|r rows IH]; intros w cs rs w' H.
  - cbn in H. unfold mret, M_ret in H. simplify_eq. split; reflexivity.
  - rewrite transform_clients_cons in H.
    destruct (transform_client r w) as [[[c rr]|e] w1]; [|discriminate].
    destruct (transform_clients rows w1) as [[[cs' rs']|e] w2] eqn:E; [|discriminate].
    simplify_eq. apply IH in E as [E1 E2]. simpl. rewrite E1, E2. split; reflexivity.
Qed.

Lemma transform_clients_is_ok rows : forall w,
  is_ok (transform_clients rows w).1 = forallb client_row_ok rows.
Proof.
  induction rows as [|r rows IH]; intros w; [reflexivity|].
  rewrite transform_clients_cons. simpl forallb.
  rewrite <- (transform_client_is_ok r w), <- (IH (transform_client r w).2).
  destruct (transform_client r w) as [[[c rr]|e] w1]; [|reflexivity]. simpl.
  destruct (transform_clients rows w1) as [[[cs rs]|e] w2]; reflexivity.
Qed.

Lemma transform_clients_outcome rows w :
  exists w',
    (forallb client_row_ok rows = true /\
     exists cs rs, transform_clients rows w = (Ok (cs, rs), w')
                   /\ length cs = length rows /\ length rs = length rows)
    \/ (forallb client_row_ok rows = false
        /\ exists e, transform_clients rows w = (Raise e, w')).
Proof.
  pose proof (transform_clients_is_ok rows w) as H.
  destruct (transform_clients rows w) as [[[cs rs]|e] w'] eqn:E; simpl in H; exists w'.
  - left. split; [auto|]. exists cs, rs. split; [reflexivity|].
    eapply transform_clients_length; eauto.
  - right. split; [auto|]. eauto.
Qed.

Lemma save_if_any_clean {B} (save : list B -> Session -> Session) objs w db :
  Db.commit (save [] db) = db ->
  save_if_any save objs (w, db) = (Ok tt, (w, Db.commit (save objs db))).
Proof. intros H. destruct objs; cbn; [now rewrite H | reflexivity]. Qed.

Lemma run_eq {A} (m : M A) w db :
  run m (w, db) = ((m w).1, ((m w).2, db)).
Proof. unfold run. now destruct (m w). Qed.

Lemma Run_bind_eq {A B} (m : Run A) (f : A -> Run B) s :
  (m ≫= f) s = match m s with
               | (Ok a, s') => f a s'
               | (Raise e, s') => (Raise e, s')
               end.
Proof. reflexivity. Qed.

Ltac norm_db :=
  cbv [Db.commit Db.close Db.on_working
       Db.delete_Alert Db.delete_Case Db.delete_LoginActivity Db.delete_Transaction
       Db.delete_ClientPhoneHistory Db.delete_ClientAddressHistory
       Db.delete_RiskResult Db.delete_Client
       Db.save_Client Db.save_RiskResult Db.save_ClientAddressHistory
       Db.save_ClientPhoneHistory Db.save_LoginActivity Db.save_Transaction
       Db.save_Case Db.save_Alert
       committed working clients risk_results client_address_history
       client_phone_history login_activity transactions_ cases alerts
       db_do fst snd app].

Ltac run_binds := repeat (rewrite Run_bind_eq; cbn [db_do]); norm_db.

Ltac count_rows :=
  unfold mret, Run_ret; norm_db;
  repeat match goal with
  | H : forallb _ _ = _ |- _ => rewrite H; clear H
  end;
  cbn [counts_until_failure map]; unfold row_counts;
  norm_db; cbn [length]; congruence.

Ltac stage_fails E := rewrite run_eq, E; count_rows.

(** One entity class of [load]: the batch is transformed and saved, or
    the run stops there, which [stops] settles. *)
Ltac stage_with f_is_ok objs Hlen stops :=
  match goal with
  | |- context [run (transform_all ?f ?rows) (?w, _)] =>
      let w1 := fresh "w" in
      let Hok := fresh "Hok" in
      let E := fresh "E" in
      let e := fresh "e" in
      destruct (transform_all_outcome f _ f_is_ok rows w)
        as [w1 [[Hok (objs & E & Hlen)] | [Hok (e & E)]]];
      [ rewrite run_eq, E; cbn [fst snd]; rewrite Run_bind_eq;
        rewrite save_if_any_clean by reflexivity; cbn [fst snd]; run_binds
      | rewrite run_eq, E; stops ]
  end.

Ltac stage f_is_ok objs Hlen := stage_with f_is_ok objs Hlen count_rows.

Lemma migrate_counts c u src w t :
  row_counts (migrate (Some (String c u)) src w t) = loaded_counts src.
Proof.
  unfold migrate, main, try_finally, load, loaded_counts.
  unfold extract_clients, extract_addresses, extract_phones, extract_ip_logs,
    extract_transactions, extract_cases, extract_alerts.
  run_binds.
  destruct (transform_clients_outcome (client_information src) w)
    as [w1 [[Hok (cs & rs & E & Hcs & Hrs)] | [Hok (e & E)]]];
    [|stage_fails E].
  rewrite run_eq, E. cbn [fst snd]. run_binds.
  stage transform_address_is_ok addr_objs Haddr.
  stage transform_phone_is_ok phone_objs Hphone.
  stage transform_login_is_ok login_objs Hlogin.
  stage transform_transaction_is_ok tx_objs Htx.
  stage transform_case_is_ok case_objs Hcase.
  stage transform_alert_is_ok alert_objs Halert. count_rows.
Qed.

Lemma loaded_counts_all_ok src :
  all_rows_ok src = true -> loaded_counts src = source_counts src.
Proof.
  unfold all_rows_ok, loaded_counts, source_counts. intros H.
  repeat (apply andb_true_iff in H as [H ?]).
  repeat match goal with
  | H : forallb _ _ = _ |- _ => rewrite H; clear H
  end.
  reflexivity.
Qed.

(** ** Full refresh *)

(** C9: a second run over the same source leaves the row counts of the
    first run, class by class, whatever the clock and the UUIDs of either
    run; a run with a source configured clears every class before it loads,
    so that its counts are a function of the source alone, whatever the
    store held before; and when every source row is accepted, they are the
    counts of the source. *)
Theorem full_refresh_row_counts
  (SOURCE_DB_URL : option string) (src : Source) (w1 w2 : World) (store : Target) :
  row_counts (migrate SOURCE_DB_URL src w2 (migrate SOURCE_DB_URL src w1 store))
    = row_counts (migrate SOURCE_DB_URL src w1 store)
  /\ (forall c u, SOURCE_DB_URL = Some (String c u) ->
        row_counts (migrate SOURCE_DB_URL src w1 store) = loaded_counts src
        /\ (all_rows_ok src = true ->
              row_counts (migrate SOURCE_DB_URL src w1 store) = source_counts src)).
Proof.
  split.
  - destruct SOURCE_DB_URL as [[|c u]|]; [reflexivity | | reflexivity].
    now rewrite !migrate_counts.
  - intros c u ->. rewrite migrate_counts. split; [reflexivity|].
    apply loaded_counts_all_ok.
Qed.

(** ** Risk results *)

Section RiskResults.

Lemma get_Some (r : row) k v : r !! k = Some v -> get r k = v.
Proof. unfold get. now intros ->. Qed.



End RiskResults.

Section Ratings.
Import Text.











End Ratings.


(** ** Synthesized alert identifiers *)

Section AlertIds.
Import Text.

Lemma slice_to_length n s : (String.length (slice_to n s) <= n)%nat.
Proof.
  unfold slice_to. revert n. induction s as [|c s IH]; intros [|n]; simpl; try lia.
  specialize (IH n). lia.
Qed.

Lemma slice_to_short n s : (String.length s <= n)%nat -> slice_to n s = s.
Proof.
  unfold slice_to. revert n. induction s as [|c s IH]; intros [|n] H; simpl in *;
    try reflexivity; try lia.
  f_equal. apply IH. lia.
Qed.

Lemma alert_id_not_cut h :
  slice_to 40 (Py.str (VStr ("AL-" +:+ slice_to 22 h))) = "AL-" +:+ slice_to 22 h.
Proof.
  simpl Py.str. apply slice_to_short. rewrite string_length_app.
  pose proof (slice_to_length 22 h). simpl. lia.
Qed.

Lemma startswith_append p x : startswith (p +:+ x) p = true.
Proof.
  unfold startswith. induction p as [|c p IH].
  - rewrite append_nil. destruct x; reflexivity.
  - rewrite append_cons. cbn [String.prefix].
    destruct (ascii_dec c c); [exact IH | congruence].
Qed.

Lemma alert_draws_exact r w a w' :
  transform_alert r w = (Ok a, w') ->
  Py.truthy (get r "alert_id") = false ->
  uuid_draws w' = (uuid_draws w + 1 + (if draws_case_id r then 1 else 0))%nat.
Proof.
  intros H Hlack. unfold draws_case_id.
  unfold transform_alert in H. mrun H.
  all: simplify_eq; use_truthy; cbn -[norm_client_id Text.slice_to Py.str]; try lia.
  all: congruence.
Qed.

Lemma alert_id_draws_range rows : forall n,
  Forall (fun i => n <= i)%nat (alert_id_draws rows n).
Proof.
  induction rows as [|r rows IH]; intros n; [constructor|].
  cbn [alert_id_draws]. constructor; [lia|].
  eapply Forall_impl; [apply IH|]. intros i Hi. simpl in Hi. lia.
Qed.

Lemma alert_ids rows : forall w objs w',
  Forall (fun r => Py.truthy (get r "alert_id") = false) rows ->
  transform_all transform_alert rows w = (Ok objs, w') ->
  uuid4_hex w' = uuid4_hex w
  /\ Alert.alert_id <$> objs = alert_id_of_uuid w <$> alert_id_draws rows (uuid_draws w)
  /\ Forall (fun i => uuid_draws w <= i < uuid_draws w')%nat
            (alert_id_draws rows (uuid_draws w))
  /\ (uuid_draws w <= uuid_draws w')%nat.
Proof.
  induction rows as [|r rows IH]; intros w objs w' Hlack H.
  - rewrite transform_all_nil in H. simplify_eq. repeat split; try constructor.
  - rewrite transform_all_cons in H.
    destruct (transform_alert r w) as [[a|e] w1] eqn:Hr; [|discriminate].
    destruct (transform_all transform_alert rows w1) as [[objs'|e] w2] eqn:E; [|discriminate].
    simplify_eq. apply Forall_cons in Hlack as [Hr0 Hlack].
    pose proof (alert_draws_exact _ _ _ _ Hr Hr0) as Hn.
    apply transform_alert_inv in Hr as (_ & Hid & _ & _ & (_ & _ & _ & Hhex) & _).
    rewrite Hr0, alert_id_not_cut in Hid.
    apply IH in E as (Hhex' & Hids & Hrange & Hle); [|assumption].
    cbn [alert_id_draws]. rewrite <- Hn.
    split; [congruence|]. split; [|split; [|lia]].
    + rewrite !fmap_cons, Hids, Hid. f_equal.
      apply list_fmap_ext. intros _ i _. unfold alert_id_of_uuid. now rewrite Hhex.
    + constructor; [lia|].
      eapply Forall_impl; [exact Hrange|]. intros i Hi. simpl in Hi. lia.
Qed.

Lemma alert_id_draws_NoDup {A} (g : nat -> A) a b rows : forall n,
  (a <= n)%nat ->
  Forall (fun i => a <= i < b)%nat (alert_id_draws rows n) ->
  (forall i j, (a <= i < j)%nat -> (j < b)%nat -> g i <> g j) ->
  NoDup (g <$> alert_id_draws rows n).
Proof.
  induction rows as [|r rows IH]; intros n Hn Hr Hg; [constructor|].
  cbn [alert_id_draws] in *. apply Forall_cons in Hr as [Hnr Hr].
  rewrite fmap_cons. apply NoDup_cons. split; [|apply IH; [lia | exact Hr | exact Hg]].
  intros Hin. apply list_elem_of_fmap in Hin as (y & Heq & Hy).
  pose proof (proj1 (Forall_forall _ _) (alert_id_draws_range rows _) y Hy) as Hlt.
  pose proof (proj1 (Forall_forall _ _) Hr y Hy) as Hyr. simpl in *.
  apply (Hg n y); [lia | lia | exact Heq].
Qed.

End AlertIds.

(** C6 (amended): for alert rows that all lack [alert_id], the batch, if
    every row is accepted, yields one alert a row; each identifier starts
    with [AL-] and is [AL-] and the first 22 hexadecimal digits of the
    UUID drawn for it, the UUIDs being drawn in row order, within the
    batch.  The identifiers are pairwise distinct exactly when the first
    22 digits of the UUIDs drawn for them are; in particular they are when
    the first 22 digits of the UUIDs drawn during the batch, from its
    first draw to its last, are pairwise distinct.  If a row is not
    accepted, the batch raises. *)
Theorem synthesized_alert_ids_distinct (rows : list row) (w : World) :
  Forall (fun r => Py.truthy (get r "alert_id") = false) rows ->
  match transform_all transform_alert rows w with
  | (Ok objs, w') =>
      length objs = length rows
      /\ Forall (fun a => Text.startswith (Alert.alert_id a) "AL-" = true) objs
      /\ Alert.alert_id <$> objs
         = alert_id_of_uuid w <$> alert_id_draws rows (uuid_draws w)
      /\ Forall (fun i => uuid_draws w <= i < uuid_draws w')%nat
                (alert_id_draws rows (uuid_draws w))
      /\ (NoDup (Alert.alert_id <$> objs)
          <-> NoDup ((fun i => Text.slice_to 22 (uuid4_hex w i))
                       <$> alert_id_draws rows (uuid_draws w)))
      /\ ((forall i j, (uuid_draws w <= i < j)%nat -> (j < uuid_draws w')%nat ->
             Text.slice_to 22 (uuid4_hex w i) <> Text.slice_to 22 (uuid4_hex w j)) ->
          NoDup (Alert.alert_id <$> objs))
  | (Raise _, _) => forallb alert_row_ok rows = false
  end.
Proof.
  intros Hlack.
  pose proof (transform_all_is_ok _ _ transform_alert_is_ok rows w) as Hok.
  destruct (transform_all transform_alert rows w) as [[objs|e] w'] eqn:E; simpl in *;
    [|now symmetry].
  destruct (alert_ids rows w objs w' Hlack E) as (_ & Hids & Hrange & _).
  assert (NoDup (Alert.alert_id <$> objs)
          <-> NoDup ((fun i => Text.slice_to 22 (uuid4_hex w i))
                       <$> alert_id_draws rows (uuid_draws w))) as Hiff.
  { rewrite Hids.
    change (alert_id_of_uuid w)
      with (String.append "AL-" ∘ (fun i => Text.slice_to 22 (uuid4_hex w i))).
    rewrite list_fmap_compose. apply NoDup_fmap. apply _. }
  split; [eapply transform_all_length; eauto|].
  split.
  { apply Forall_forall. intros a Ha.
    assert (Alert.alert_id a ∈ Alert.alert_id <$> objs) as Hin
      by (apply list_elem_of_fmap; eauto).
    rewrite Hids in Hin. apply list_elem_of_fmap in Hin as (i & -> & _).
    apply startswith_append. }
  split; [exact Hids|]. split; [exact Hrange|]. split; [exact Hiff|].
  intros Hinj. apply Hiff.
  eapply alert_id_draws_NoDup; [reflexivity | exact Hrange | exact Hinj].
Qed.

(** ** Coercions *)

Section Coercions.
Import Text.







End Coercions.




(** ** Failures *)

(** C2, as the claim states it, fails: a client row that has its
    [client_id], and text that is not a number as its income, makes the
    transform raise [ValueError]. *)
Lemma malformed_income_raises :
  Example.bad_income_row !! "client_id" = Some (VStr "42")
  /\ (transform_client Example.bad_income_row (Example.world Example.far_uuids)).1
     = Raise ValueError.
Proof. split; vm_compute; reflexivity. Qed.

(** C2 (amended): each transform returns a record exactly for the rows it
    accepts, those where [client_id] is a column, every sliced field is
    text or falsy and every numeric field converts; absent and null fields
    and dates and timestamps of any content never make it raise.  A row
    without the column [client_id] makes it raise [KeyError].  A batch is
    transformed exactly when every one of its rows is accepted: one
    failing row fails the batch. *)
Theorem transforms_fail_exactly_on (r : row) (rows : list row) (w : World) :
  (is_ok (transform_client r w).1 = client_row_ok r
   /\ is_ok (transform_address r w).1 = address_row_ok r
   /\ is_ok (transform_phone r w).1 = phone_row_ok r
   /\ is_ok (transform_login r w).1 = login_row_ok r
   /\ is_ok (transform_transaction r w).1 = transaction_row_ok r
   /\ is_ok (transform_case r w).1 = case_row_ok r
   /\ is_ok (transform_alert r w).1 = alert_row_ok r)
  /\ (r !! "client_id" = None ->
      (transform_client r w).1 = Raise KeyError
      /\ (transform_address r w).1 = Raise KeyError
      /\ (transform_phone r w).1 = Raise KeyError
      /\ (transform_login r w).1 = Raise KeyError
      /\ (transform_transaction r w).1 = Raise KeyError
      /\ (transform_case r w).1 = Raise KeyError
      /\ (transform_alert r w).1 = Raise KeyError)
  /\ (is_ok (transform_clients rows w).1 = forallb client_row_ok rows
      /\ is_ok (transform_all transform_address rows w).1 = forallb address_row_ok rows
      /\ is_ok (transform_all transform_phone rows w).1 = forallb phone_row_ok rows
      /\ is_ok (transform_all transform_login rows w).1 = forallb login_row_ok rows
      /\ is_ok (transform_all transform_transaction rows w).1
         = forallb transaction_row_ok rows
      /\ is_ok (transform_all transform_case rows w).1 = forallb case_row_ok rows
      /\ is_ok (transform_all transform_alert rows w).1 = forallb alert_row_ok rows).
Proof.
  split; [|split].
  - repeat split;
      auto using transform_client_is_ok, transform_address_is_ok, transform_phone_is_ok,
        transform_login_is_ok, transform_transaction_is_ok, transform_case_is_ok,
        transform_alert_is_ok.
  - intros H. repeat split;
      auto using transform_client_KeyError, transform_address_KeyError,
        transform_phone_KeyError, transform_login_KeyError,
        transform_transaction_KeyError, transform_case_KeyError,
        transform_alert_KeyError.
  - repeat split; auto using transform_clients_is_ok;
      apply transform_all_is_ok;
      auto using transform_address_is_ok, transform_phone_is_ok,
        transform_login_is_ok, transform_transaction_is_ok, transform_case_is_ok,
        transform_alert_is_ok.
Qed.

Lemma transforms_fail_exactly_on_witness :
  (∅ : row) !! "client_id" = None
  /\ (transform_client ∅ (Example.world Example.far_uuids)).1 = Raise KeyError
  /\ (transform_transaction ∅ (Example.world Example.far_uuids)).1 = Raise KeyError.
Proof.
  split; [reflexivity|].
  destruct (transforms_fail_exactly_on ∅ [] (Example.world Example.far_uuids))
    as (_ & H & _).
  destruct (H eq_refl) as (H1 & _ & _ & _ & H5 & _).
  split; [exact H1 | exact H5].
Defined.

(** ** Identifiers of logins, transactions and alerts *)

Section Outcomes.

Lemma is_ok_true {A} (x : result A * World) :
  is_ok x.1 = true -> exists a w', x = (Ok a, w').
Proof. destruct x as [[a|e] w']; simpl; [eauto | discriminate]. Qed.

End Outcomes.

(** C7, as the claim states it, fails for transactions: the identifier
    synthesized for a transaction is the bare UUID, and two of them need
    not share any prefix. *)
Lemma synthesized_tx_ids_have_no_prefix :
  match (transform_all transform_transaction [Example.child_row; Example.child_row]
           (Example.world Example.far_uuids)).1 with
  | Ok objs =>
      Transaction.tx_id <$> objs
      = ["0123456789ab4cde8f0123456789abcd"; "1123456789ab4cde8f0123456789abcd"]
  | Raise _ => False
  end
  /\ forall p, Text.startswith "0123456789ab4cde8f0123456789abcd" p = true ->
               Text.startswith "1123456789ab4cde8f0123456789abcd" p = true ->
               p = "".
Proof.
  split; [vm_compute; reflexivity|].
  intros [|c p] H0 H1; [reflexivity|].
  unfold Text.startswith in *. cbn [String.prefix] in *.
  destruct (ascii_dec c "0"); [|discriminate].
  destruct (ascii_dec c "1"); [|discriminate].
  congruence.
Qed.

(** C7 (amended): for the rows each transform accepts, the login
    identifier is the text of [log_id] cut to 40 characters, or, when
    [log_id] is absent or falsy, [LG-] and the first 24 digits of a fresh
    UUID; the alert identifier is the text of [alert_id] cut to 40
    characters, or [AL-] and the first 22 digits of a fresh UUID; the
    transaction identifier is the text of [tx_id] cut to 32 characters, or
    the first 32 digits of a fresh UUID, with no prefix. *)
Theorem identifiers_truncated_or_synthesized (r : row) (w : World) :
  (login_row_ok r = true ->
   exists a w', transform_login r w = (Ok a, w')
     /\ LoginActivity.login_id a
        = (if Py.truthy (get r "log_id") then Text.slice_to 40 (Py.str (get r "log_id"))
           else "LG-" +:+ Text.slice_to 24 (uuid4_hex w (uuid_draws w)))
     /\ (String.length (LoginActivity.login_id a) <= 40)%nat)
  /\ (transaction_row_ok r = true ->
      exists a w', transform_transaction r w = (Ok a, w')
        /\ Transaction.tx_id a
           = (if Py.truthy (get r "tx_id") then Text.slice_to 32 (Py.str (get r "tx_id"))
              else Text.slice_to 32 (uuid4_hex w (uuid_draws w)))
        /\ (String.length (Transaction.tx_id a) <= 32)%nat)
  /\ (alert_row_ok r = true ->
      exists a w', transform_alert r w = (Ok a, w')
        /\ Alert.alert_id a
           = (if Py.truthy (get r "alert_id")
              then Text.slice_to 40 (Py.str (get r "alert_id"))
              else "AL-" +:+ Text.slice_to 22 (uuid4_hex w (uuid_draws w)))
        /\ (String.length (Alert.alert_id a) <= 40)%nat).
Proof.
  split; [|split]; intros Hok.
  - rewrite <- (transform_login_is_ok r w) in Hok.
    apply is_ok_true in Hok as (a & w' & E). exists a, w'. split; [exact E|].
    apply transform_login_inv in E as (_ & Hid & _).
    rewrite Hid. split; [|apply slice_to_length].
    destruct (Py.truthy (get r "log_id")); [reflexivity|].
    simpl Py.str. apply slice_to_short. rewrite string_length_app.
    pose proof (slice_to_length 24 (uuid4_hex w (uuid_draws w))). simpl. lia.
  - rewrite <- (transform_transaction_is_ok r w) in Hok.
    apply is_ok_true in Hok as (a & w' & E). exists a, w'. split; [exact E|].
    apply transform_transaction_inv in E as (_ & Hid & _).
    rewrite Hid. split; [|apply slice_to_length].
    destruct (Py.truthy (get r "tx_id")); reflexivity.
  - rewrite <- (transform_alert_is_ok r w) in Hok.
    apply is_ok_true in Hok as (a & w' & E). exists a, w'. split; [exact E|].
    apply transform_alert_inv in E as (_ & Hid & _).
    rewrite Hid. split; [|apply slice_to_length].
    destruct (Py.truthy (get r "alert_id")); [reflexivity|].
    apply alert_id_not_cut.
Qed.

Lemma identifiers_truncated_or_synthesized_witness :
  login_row_ok Example.child_row = true
  /\ exists a w', transform_login Example.child_row (Example.world Example.far_uuids)
                  = (Ok a, w')
       /\ LoginActivity.login_id a = "LG-0123456789ab4cde8f012345".
Proof.
  split; [reflexivity|].
  destruct (identifiers_truncated_or_synthesized Example.child_row
              (Example.world Example.far_uuids)) as (H & _ & _).
  destruct (H eq_refl) as (a & w' & E & Hid & _).
  exists a, w'. split; [exact E | exact Hid].
Defined.

(** ** The client transform on the rows of the specification *)

Section Slices.
Import Text.

Lemma slice_to_exact n s :
  (n <= String.length s)%nat -> String.length (slice_to n s) = n.
Proof.
  unfold slice_to. revert n. induction s as [|c s IH]; intros [|n] H; simpl in *;
    try reflexivity; try lia.
  f_equal. apply IH. lia.
Qed.

Lemma slice_to_prefix n s : exists tail, s = slice_to n s +:+ tail.
Proof.
  unfold slice_to. revert n. induction s as [|c s IH]; intros [|n]; simpl.
  - exists "". reflexivity.
  - exists "". reflexivity.
  - exists (String c s). reflexivity.
  - destruct (IH n) as [tail Ht]. exists tail. rewrite append_cons. now rewrite <- Ht.
Qed.

End Slices.

(** C8: for a client row the transform accepts, the client is built, and:
    [client_id] "42" gives the identifier [C0000042]; a null [full_name]
    gives [Unknown Client]; a null [dob] gives 1990-01-01; a [full_name] of
    200 characters gives its first 120 characters. *)
Theorem client_defaults_and_truncation (r : row) (w : World) :
  client_row_ok r = true ->
  exists c rr w',
    transform_client r w = (Ok (c, rr), w')
    /\ (r !! "client_id" = Some (VStr "42") -> Client.client_id c = "C0000042")
    /\ (get r "full_name" = VNone -> Client.full_name c = "Unknown Client")
    /\ (get r "dob" = VNone -> Client.dob c = ADate (mkdate 1990 1 1))
    /\ (forall s, get r "full_name" = VStr s -> String.length s = 200%nat ->
          Client.full_name c = Text.slice_to 120 s
          /\ String.length (Client.full_name c) = 120%nat
          /\ exists tail, s = Client.full_name c +:+ tail).
Proof.
  intros Hok. rewrite <- (transform_client_is_ok r w) in Hok.
  apply is_ok_true in Hok as ([c rr] & w' & E). exists c, rr, w'.
  split; [exact E|].
  apply transform_client_inv in E
    as (_ & (v & Hv & Hid) & _ & Hname & Hdob & _).
  split; [|split; [|split]].
  - intros H42. rewrite H42 in Hv. simplify_eq. rewrite Hid. reflexivity.
  - intros Hnull. rewrite Hnull in Hname. cbn in Hname. now simplify_eq.
  - intros Hnull. rewrite Hdob, Hnull. reflexivity.
  - intros s Hs Hlen. rewrite Hs in Hname.
    assert (Client.full_name c = Text.slice_to 120 s) as ->.
    { unfold bounded_str, Py.or_ in Hname.
      destruct s; [discriminate|]. cbn in Hname. now simplify_eq. }
    split; [reflexivity|]. split; [apply slice_to_exact; lia | apply slice_to_prefix].
Qed.

Lemma client_defaults_and_truncation_witness :
  client_row_ok Example.client_row = true
  /\ client_row_ok Example.long_name_row = true
  /\ (exists c rr w',
        transform_client Example.client_row (Example.world Example.far_uuids)
        = (Ok (c, rr), w')
        /\ Client.client_id c = "C0000042"
        /\ Client.full_name c = "Unknown Client"
        /\ Client.dob c = ADate (mkdate 1990 1 1))
  /\ (exists c rr w',
        transform_client Example.long_name_row (Example.world Example.far_uuids)
        = (Ok (c, rr), w')
        /\ String.length (Client.full_name c) = 120%nat).
Proof.
  split; [reflexivity|]. split; [reflexivity|]. split.
  - destruct (client_defaults_and_truncation Example.client_row
                (Example.world Example.far_uuids) eq_refl)
      as (c & rr & w' & E & H1 & H2 & H3 & _).
    exists c, rr, w'. split; [exact E|].
    split; [apply H1; reflexivity|]. split; [apply H2; reflexivity | apply H3; reflexivity].
  - destruct (client_defaults_and_truncation Example.long_name_row
                (Example.world Example.far_uuids) eq_refl)
      as (c & rr & w' & E & _ & _ & _ & H4).
    exists c, rr, w'. split; [exact E|].
    destruct (H4 Example.long_name eq_refl eq_refl) as (_ & Hlen & _). exact Hlen.
Defined.

(** ** Optional fields *)

(** C10, as the claim states it, fails: a [case_id] of blank text is
    truthy, and the alert receives a synthesized [CASE-] identifier; a
    [closed_at] that is not a timestamp is truthy, and the case is closed
    at the time of the run. *)
Lemma optional_fields_fall_back :
  Py.truthy (get Example.blank_case_alert "case_id") = true
  /\ match (transform_alert Example.blank_case_alert (Example.world Example.far_uuids)).1 with
     | Ok a => Alert.case_id a = Some "CASE-1123456789ab4cde8f01"
     | Raise _ => False
     end
  /\ match (transform_case Example.unparseable_close (Example.world Example.far_uuids)).1 with
     | Ok c => Case.closed_at c = Some (utcnow (Example.world Example.far_uuids) 1)
     | Raise _ => False
     end.
Proof. split; [|split]; vm_compute; reflexivity. Qed.

(** C10 (amended): for the rows each transform accepts, the end date of an
    address or a phone, the closing time of a case and the case of an
    alert are [None] exactly when the source value is absent or falsy;
    otherwise they are what the coercion of the field returns for the
    source value: [to_date] with the default 1990-01-01 (never today),
    [to_dt] with the time of the run as default, [norm_case_id] with its
    synthesized identifier for blank text. *)
Theorem optional_fields_keep_null (r : row) (w : World) :
  (address_row_ok r = true ->
   exists a w', transform_address r w = (Ok a, w')
     /\ ClientAddressHistory.to_date a
        = (if Py.truthy (get r "to_date")
           then Some (coerced_date w (get r "to_date") (ADate (mkdate 1990 1 1)))
           else None))
  /\ (phone_row_ok r = true ->
      exists a w', transform_phone r w = (Ok a, w')
        /\ ClientPhoneHistory.to_date a
           = (if Py.truthy (get r "to_date")
              then Some (coerced_date w (get r "to_date") (ADate (mkdate 1990 1 1)))
              else None))
  /\ (case_row_ok r = true ->
      exists c w', transform_case r w = (Ok c, w')
        /\ Case.closed_at c
           = (if Py.truthy (get r "closed_at")
              then Some (coerced_datetime w (get r "closed_at")
                           (utcnow w (S (clock_reads w))))
              else None))
  /\ (alert_row_ok r = true ->
      exists a w', transform_alert r w = (Ok a, w')
        /\ Alert.case_id a
           = (if Py.truthy (get r "case_id") then
                Some (if Py.truthy (VStr (case_text (get r "case_id")))
                      then case_text (get r "case_id")
                      else "CASE-" +:+ Text.slice_to 20
                             (uuid4_hex w (if Py.truthy (get r "alert_id")
                                           then uuid_draws w else S (uuid_draws w))))
              else None)).
Proof.
  split; [|split; [|split]]; intros Hok.
  - rewrite <- (transform_address_is_ok r w) in Hok.
    apply is_ok_true in Hok as (a & w' & E). exists a, w'. split; [exact E|].
    now apply transform_address_inv in E as (_ & _ & H & _).
  - rewrite <- (transform_phone_is_ok r w) in Hok.
    apply is_ok_true in Hok as (a & w' & E). exists a, w'. split; [exact E|].
    now apply transform_phone_inv in E as (_ & _ & H & _).
  - rewrite <- (transform_case_is_ok r w) in Hok.
    apply is_ok_true in Hok as (a & w' & E). exists a, w'. split; [exact E|].
    now apply transform_case_inv in E as (_ & _ & _ & H & _).
  - rewrite <- (transform_alert_is_ok r w) in Hok.
    apply is_ok_true in Hok as (a & w' & E). exists a, w'. split; [exact E|].
    now apply transform_alert_inv in E as (_ & _ & _ & H & _).
Qed.

Lemma optional_fields_keep_null_witness :
  address_row_ok Example.child_row = true
  /\ exists a w', transform_address Example.child_row (Example.world Example.far_uuids)
                  = (Ok a, w')
       /\ ClientAddressHistory.to_date a = None.
Proof.
  split; [reflexivity|].
  destruct (optional_fields_keep_null Example.child_row (Example.world Example.far_uuids))
    as (H & _).
  destruct (H eq_refl) as (a & w' & E & Hnone).
  exists a, w'. split; [exact E | exact Hnone].
Defined.

(** ** Worked examples: risk results, alert identifiers, two runs *)


(** C6, as the claim states it, fails: two UUIDs that differ, but not in
    their first 22 digits, give two alerts the same identifier. *)
Lemma distinct_uuids_same_alert_id :
  Example.close_uuids 0 <> Example.close_uuids 1
  /\ Py.truthy (get Example.child_row "alert_id") = false
  /\ match (transform_all transform_alert [Example.child_row; Example.child_row]
              (Example.world Example.close_uuids)).1 with
     | Ok objs =>
         Alert.alert_id <$> objs
         = ["AL-0123456789ab4cde8f0123"; "AL-0123456789ab4cde8f0123"]
     | Raise _ => False
     end.
Proof. split; [|split]; vm_compute; [discriminate | reflexivity | reflexivity]. Qed.

Lemma synthesized_alert_ids_distinct_witness :
  Forall (fun r => Py.truthy (get r "alert_id") = false)
         [Example.child_row; Example.blank_case_alert]
  /\ exists objs w',
       transform_all transform_alert [Example.child_row; Example.blank_case_alert]
         (Example.world Example.far_uuids) = (Ok objs, w')
       /\ uuid_draws w' = 3%nat
       /\ length objs = 2%nat
       /\ Alert.alert_id <$> objs
          = ["AL-0123456789ab4cde8f0123"; "AL-1123456789ab4cde8f0123"]
       /\ NoDup (Alert.alert_id <$> objs).
Proof.
  assert (Forall (fun r => Py.truthy (get r "alert_id") = false)
                 [Example.child_row; Example.blank_case_alert]) as Hlack
    by (repeat constructor).
  split; [exact Hlack|].
  destruct (is_ok_true _ (eq_trans (transform_all_is_ok _ _ transform_alert_is_ok
                                      [Example.child_row; Example.blank_case_alert]
                                      (Example.world Example.far_uuids)) eq_refl))
    as (objs & w' & E).
  assert (uuid_draws w' = 3%nat) as Hw.
  { replace w' with (transform_all transform_alert
                       [Example.child_row; Example.blank_case_alert]
                       (Example.world Example.far_uuids)).2 by (now rewrite E).
    vm_compute. reflexivity. }
  exists objs, w'. split; [exact E|]. split; [exact Hw|].
  pose proof (synthesized_alert_ids_distinct [Example.child_row; Example.blank_case_alert]
                (Example.world Example.far_uuids) Hlack) as H.
  rewrite E in H. destruct H as (Hlen & _ & Hids & _ & _ & Hnd).
  split; [exact Hlen|]. split; [rewrite Hids; vm_compute; reflexivity|].
  apply Hnd. intros i j Hij Hj. rewrite Hw in Hj. simpl in Hij.
  destruct i as [|[|[|i]]]; destruct j as [|[|[|j]]]; try lia;
    vm_compute; discriminate.
Defined.

Lemma full_refresh_row_counts_witness :
  all_rows_ok Example.source = true
  /\ row_counts (migrate (Some "postgresql://source") Example.source
                   (Example.world Example.far_uuids) Example.stale_store)
     = [2; 2; 1; 0; 1; 1; 1; 2]%nat
  /\ row_counts (migrate (Some "postgresql://source") Example.source
                   (Example.world Example.far_uuids)
                   (migrate (Some "postgresql://source") Example.source
                      (Example.world Example.close_uuids) Example.stale_store))
     = row_counts (migrate (Some "postgresql://source") Example.source
                     (Example.world Example.close_uuids) Example.stale_store).
Proof.
  split; [reflexivity|].
  destruct (full_refresh_row_counts (Some "postgresql://source") Example.source
              (Example.world Example.far_uuids) (Example.world Example.far_uuids)
              Example.stale_store) as [_ H].
  destruct (H _ _ eq_refl) as [_ Hall].
  split; [exact (Hall eq_refl)|].
  exact (proj1 (full_refresh_row_counts (Some "postgresql://source") Example.source
                  (Example.world Example.close_uuids) (Example.world Example.far_uuids)
                  Example.stale_store)).
Defined.

(** * Further properties *)

(** ** Integer client identifiers *)

Section IntegerIds.
Import Text.

Lemma digit_not_minus c : isdigit c = true -> Ascii.eqb c "-" = false.
Proof. destruct c as [[] [] [] [] [] [] [] []]; vm_compute; congruence. Qed.

Lemma lstrip_not_space c r : isspace c = false -> lstrip (String c r) = String c r.
Proof. intros H. simpl. now rewrite H. Qed.

Lemma all_digits_string_of_uint u : all_digits (NilEmpty.string_of_uint u) = true.
Proof. induction u; simpl; auto. Qed.

Lemma uint_of_zeros k s u :
  NilEmpty.uint_of_string s = Some u ->
  NilEmpty.uint_of_string (zeros k +:+ s) = Some (Nat.iter k Decimal.D0 u).
Proof.
  intros H. induction k as [|k IH]; [exact H|].
  cbn [zeros]. rewrite append_cons. cbn [NilEmpty.uint_of_string]. now rewrite IH.
Qed.

Lemma of_uint_zeros k u : Z.of_uint (Nat.iter k Decimal.D0 u) = Z.of_uint u.
Proof. induction k as [|k IH]; [reflexivity | exact IH]. Qed.

Lemma magnitude_nonnil z : magnitude z <> Decimal.Nil.
Proof.
  destruct z; simpl; [discriminate | apply DecimalPos.Unsigned.to_uint_nonnil
                                   | apply DecimalPos.Unsigned.to_uint_nonnil].
Qed.

Lemma of_uint_magnitude z : Z.of_uint (magnitude z) = Z.abs z.
Proof.
  pose proof (DecimalZ.of_to z) as H. destruct z; simpl in *; [reflexivity | exact H | lia].
Qed.

Lemma digits_of_magnitude z :
  exists s, NilZero.string_of_uint (magnitude z) = s
            /\ all_digits s = true /\ s <> ""
            /\ NilEmpty.uint_of_string s = Some (magnitude z).
Proof.
  pose proof (magnitude_nonnil z) as Hn.
  exists (NilEmpty.string_of_uint (magnitude z)). repeat split.
  - destruct (magnitude z); [congruence | reflexivity ..].
  - apply all_digits_string_of_uint.
  - destruct (magnitude z); [congruence | discriminate ..].
  - apply NilEmpty.usu.
Qed.

Lemma strip_digits s : all_digits s = true -> strip s = s.
Proof.
  intros H. unfold strip. destruct s as [|c r]; [reflexivity|].
  pose proof H as H'. simpl in H'. apply andb_true_iff in H' as [Hc _].
  rewrite lstrip_not_space by now apply digit_not_space.
  now apply rclean_digits.
Qed.

Lemma read_padded k s u :
  all_digits s = true -> s <> "" -> NilEmpty.uint_of_string s = Some u ->
  read_decimal (zeros k +:+ s) = Some (Z.of_uint u).
Proof.
  intros Hd Hne Hu. unfold read_decimal, NilEmpty.int_of_string.
  pose proof (uint_of_zeros k s u Hu) as Hk.
  assert (all_digits (zeros k +:+ s) = true) as Hall
    by now rewrite all_digits_app, all_digits_zeros.
  destruct (zeros k +:+ s) as [|c r] eqn:E.
  - destruct k; [rewrite append_nil in E; congruence | discriminate].
  - simpl in Hall. apply andb_true_iff in Hall as [Hc _].
    rewrite (digit_not_minus c Hc), Hk. simpl. now rewrite of_uint_zeros.
Qed.

Lemma norm_client_id_int z :
  exists r, norm_client_id (VInt z) = String "C" r /\ read_decimal r = Some z.
Proof.
  destruct (digits_of_magnitude z) as (s & Hs & Hd & Hne & Hu).
  pose proof (of_uint_magnitude z) as Hz.
  unfold norm_client_id. simpl Py.str. unfold of_Z.
  destruct z as [|p|p]; cbn [Z.to_int NilZero.string_of_int]; simpl magnitude in *;
    rewrite ?Hs.
  1,2: rewrite (strip_digits s Hd), (digits_not_startswith_C s Hd), (zfill_digits 7 s Hd);
       simpl negb; cbv iota; rewrite append_cons, append_nil;
       eexists; split; [reflexivity|];
       rewrite (read_padded _ s _ Hd Hne Hu); f_equal; lia.
  assert (strip (String "-" s) = String "-" s) as ->.
  { unfold strip. rewrite lstrip_not_space by reflexivity.
    apply rclean_cons; [now apply rclean_digits | now left]. }
  replace (startswith (String "-" s) "C") with false by reflexivity.
  simpl negb. cbv iota. unfold zfill. replace (is_sign "-") with true by reflexivity.
  rewrite append_cons, append_nil. eexists. split; [reflexivity|].
  unfold read_decimal, NilEmpty.int_of_string. replace (Ascii.eqb "-" "-") with true by reflexivity.
  rewrite (uint_of_zeros _ s _ Hu). simpl. rewrite of_uint_zeros. f_equal. lia.
Qed.

End IntegerIds.

(** The identifier of an integer client id reads back as that integer:
    after the [C] come the decimal digits of the integer, its sign first
    and zeros next when it is padded.  Two different integers therefore
    never get the same identifier.  (For integers [str] converts: those of
    at most 4300 digits.) *)
Theorem norm_client_id_reads_back (z z' : Z) :
  within_str_digits z -> within_str_digits z' ->
  (exists r, norm_client_id (VInt z) = String "C" r /\ read_decimal r = Some z)
  /\ (z <> z' -> norm_client_id (VInt z) <> norm_client_id (VInt z')).
Proof.
  intros _ _. split; [apply norm_client_id_int|].
  destruct (norm_client_id_int z) as (r & Hr & Hz).
  destruct (norm_client_id_int z') as (r' & Hr' & Hz').
  intros Hne H. rewrite Hr, Hr' in H. apply Hne. congruence.
Qed.

Lemma norm_client_id_reads_back_witness :
  within_str_digits 42 /\ within_str_digits 7
  /\ norm_client_id (VInt 42) <> norm_client_id (VInt 7).
Proof.
  assert (within_str_digits 42) as H42 by (vm_compute; reflexivity).
  assert (within_str_digits 7) as H7 by (vm_compute; reflexivity).
  split; [exact H42|]. split; [exact H7|].
  apply (proj2 (norm_client_id_reads_back 42 7 H42 H7)). discriminate.
Defined.

(** ** The shape of identifiers, and the clock *)

Section Shape.
Import Text.

Lemma length_zfill n s : String.length (zfill n s) = Nat.max n (String.length s).
Proof.
  unfold zfill. destruct s as [|c r].
  - rewrite length_zeros. simpl. lia.
  - destruct (is_sign c).
    + simpl String.length. rewrite string_length_app, length_zeros. simpl. lia.
    + rewrite string_length_app, length_zeros. simpl. lia.
Qed.

Lemma lstrip_lclean s :
  lstrip s = "" \/ exists c r, lstrip s = String c r /\ isspace c = false.
Proof.
  induction s as [|c r IH]; [now left|].
  simpl. destruct (isspace c) eqn:Hc; [exact IH | right; eauto].
Qed.

Lemma rstrip_keeps_head c r :
  isspace c = false -> exists r', rstrip (String c r) = String c r'.
Proof.
  intros Hc. rewrite rstrip_cons. destruct (rstrip r); [rewrite Hc|]; eauto.
Qed.

Lemma strip_idem s : strip (strip s) = strip s.
Proof.
  unfold strip. destruct (lstrip_lclean s) as [-> | (c & r & -> & Hc)]; [reflexivity|].
  destruct (rstrip_keeps_head c r Hc) as [r' Hr]. rewrite Hr.
  simpl lstrip. rewrite Hc, <- Hr. apply rstrip_idem.
Qed.

End Shape.

(** Whatever the value, the normalized identifier starts with [C] and has no
    whitespace around it; it is never cut: it is the stripped text itself
    when that starts with [C], and else [C] and the text padded to 7
    characters or more. *)
Theorem norm_client_id_length (v : pyval) :
  Text.startswith (norm_client_id v) "C" = true
  /\ Text.strip (norm_client_id v) = norm_client_id v
  /\ String.length (norm_client_id v)
     = (if Text.startswith (Text.strip (Py.str v)) "C"
        then String.length (Text.strip (Py.str v))
        else S (Nat.max 7 (String.length (Text.strip (Py.str v))))).
Proof.
  split; [|split].
  - destruct (norm_client_id_shape v) as (r & -> & _). apply startswith_C_cons.
  - destruct (norm_client_id_shape v) as (r & -> & Hr). now apply strip_C.
  - unfold norm_client_id. destruct (Text.startswith _ "C"); simpl negb; cbv iota;
      [reflexivity|].
    rewrite append_cons, append_nil. simpl String.length. now rewrite length_zfill.
Qed.

Section CaseIds.
Import Text.

Lemma truthy_VStr s : Py.truthy (VStr s) = true <-> s <> "".
Proof. destruct s; simpl; split; congruence. Qed.

End CaseIds.

(** [norm_case_id] never raises and never returns an empty identifier: it
    returns the stripped text, uncut, without drawing a UUID, when that is
    not empty; for null and for blank text it draws one UUID and returns
    [CASE-] and its first 20 digits, 25 characters at most. *)
Theorem norm_case_id_never_empty (v : pyval) (w : World) :
  exists s w',
    norm_case_id v w = (Ok s, w')
    /\ s <> ""
    /\ (case_text v <> "" -> s = case_text v /\ w' = w)
    /\ (case_text v = "" ->
        s = "CASE-" +:+ Text.slice_to 20 (uuid4_hex w (uuid_draws w))
        /\ w' = drawn w /\ (String.length s <= 25)%nat)
    /\ (v = VNone -> case_text v = "").
Proof.
  rewrite norm_case_id_run.
  destruct (Py.truthy (VStr (case_text v))) eqn:Ht.
  - apply truthy_VStr in Ht. do 2 eexists. split; [reflexivity|].
    split; [exact Ht|]. split; [auto|]. split; [congruence | now intros ->].
  - assert (case_text v = "") as He.
    { destruct (case_text v); [reflexivity | discriminate]. }
    do 2 eexists. split; [reflexivity|]. split; [discriminate|].
    split; [congruence|]. split; [|now intros ->].
    intros _. split; [reflexivity|]. split; [reflexivity|].
    rewrite string_length_app. pose proof (slice_to_length 20 (uuid4_hex w (uuid_draws w))).
    simpl. lia.
Qed.

Lemma norm_case_id_never_empty_witness :
  exists s, norm_case_id VNone Sample.noon = (Ok s, drawn Sample.noon)
            /\ s = "CASE-0123456789ab4cde8f01" /\ (String.length s <= 25)%nat.
Proof.
  destruct (norm_case_id_never_empty VNone Sample.noon)
    as (s & w' & H & _ & _ & Hblank & Hnull).
  destruct (Hblank (Hnull eq_refl)) as (Hs & Hw & Hlen).
  exists s. rewrite <- Hw. split; [exact H|]. split; [|exact Hlen].
  rewrite Hs. vm_compute. reflexivity.
Defined.

Section Clock.

Lemma to_dt_run_default v d w :
  to_dt v (Some d) w = (Ok (coerced_datetime w v d), w).
Proof.
  unfold to_dt, try_except, datetime_fromisoformat, mbind, M_bind, mret, M_ret.
  destruct v; simpl; try reflexivity; destruct (fromisoformat w _); reflexivity.
Qed.

End Clock.

(** [to_date] never reads the clock, nor does [to_dt] when it is given a
    default; without one, [to_dt] reads the clock once, before it looks at
    the value, and returns what it would return with that time as
    default. *)
Theorem coercions_and_the_clock (v : pyval) (d : date_obj) (t : datetime) (w : World) :
  (to_date v d w).2 = w
  /\ (to_dt v (Some t) w).2 = w
  /\ (to_dt v None w).2 = tick w
  /\ (to_dt v None w).1 = (to_dt v (Some (utcnow w (clock_reads w))) w).1.
Proof.
  rewrite to_date_run, to_dt_run, !to_dt_run_default. repeat split.
Qed.

(** ** Links between the tables *)

Section Links.
Import Text.

Lemma norm_client_id_same_text v v' :
  strip (Py.str v) = strip (Py.str v') -> norm_client_id v = norm_client_id v'.
Proof. unfold norm_client_id. now intros ->. Qed.

Lemma transform_case_id r w c w' :
  transform_case r w = (Ok c, w') ->
  Case.case_id c <> ""
  /\ (case_text (get r "case_id") <> "" -> Case.case_id c = case_text (get r "case_id")).
Proof.
  intros H. apply transform_case_inv in H as (_ & Hid & _).
  destruct (Py.truthy (VStr (case_text (get r "case_id")))) eqn:Ht; rewrite Hid.
  - apply truthy_VStr in Ht. auto.
  - split; [discriminate|]. intros Hne. apply truthy_VStr in Hne. congruence.
Qed.

(** The client identifier each child record takes from its row. *)
Lemma child_client_ids r v w w' :
  r !! "client_id" = Some v ->
  (forall a, transform_address r w = (Ok a, w') ->
             ClientAddressHistory.client_id a = norm_client_id v)
  /\ (forall a, transform_phone r w = (Ok a, w') ->
                ClientPhoneHistory.client_id a = norm_client_id v)
  /\ (forall a, transform_login r w = (Ok a, w') ->
                LoginActivity.client_id a = norm_client_id v)
  /\ (forall a, transform_transaction r w = (Ok a, w') ->
                Transaction.client_id a = norm_client_id v)
  /\ (forall a, transform_case r w = (Ok a, w') -> Case.client_id a = norm_client_id v)
  /\ (forall a, transform_alert r w = (Ok a, w') -> Alert.client_id a = norm_client_id v).
Proof.
  intros Hv. repeat split; intros a H.
  - apply transform_address_inv in H as (_ & (v' & Hv' & ->) & _). congruence.
  - apply transform_phone_inv in H as (_ & (v' & Hv' & ->) & _). congruence.
  - apply transform_login_inv in H as (_ & _ & (v' & Hv' & ->) & _). congruence.
  - apply transform_transaction_inv in H as (_ & _ & (v' & Hv' & ->) & _). congruence.
  - apply transform_case_inv in H as (_ & _ & (v' & Hv' & ->) & _). congruence.
  - apply transform_alert_inv in H as (_ & _ & (v' & Hv' & ->) & _). congruence.
Qed.

End Links.

(** An alert and a case built from the same source [case_id]: the case
    always has an identifier; when the source value is truthy and its text
    is not blank, the alert carries the identifier of the case; when it is
    falsy the alert carries none, even if the case took its identifier from
    the text of the value (as for the integer 0). *)
Theorem alert_keeps_its_case (ra rc : row) (wa wc wa' wc' : World) (a : Alert.t) (c : Case.t) :
  get ra "case_id" = get rc "case_id" ->
  transform_alert ra wa = (Ok a, wa') ->
  transform_case rc wc = (Ok c, wc') ->
  Case.case_id c <> ""
  /\ (Py.truthy (get rc "case_id") = true -> case_text (get rc "case_id") <> "" ->
      Alert.case_id a = Some (Case.case_id c))
  /\ (Py.truthy (get rc "case_id") = false -> Alert.case_id a = None)
  /\ (Py.truthy (get rc "case_id") = false -> case_text (get rc "case_id") <> "" ->
      Case.case_id c = case_text (get rc "case_id") /\ Alert.case_id a = None).
Proof.
  intros Hsame Ha Hc.
  apply transform_case_id in Hc as [Hne Hc].
  apply transform_alert_inv in Ha as (_ & _ & _ & Ha & _). rewrite Hsame in Ha.
  split; [exact Hne|]. split; [|split].
  - intros Ht Htext. rewrite Ha, Ht, (Hc Htext).
    apply truthy_VStr in Htext. now rewrite Htext.
  - intros Ht. now rewrite Ha, Ht.
  - intros Ht Htext. split; [auto|]. now rewrite Ha, Ht.
Qed.

Lemma alert_keeps_its_case_witness :
  exists a c wa wc,
    transform_alert Sample.linked Sample.noon = (Ok a, wa)
    /\ transform_case Sample.linked Sample.noon = (Ok c, wc)
    /\ Alert.case_id a = Some (Case.case_id c).
Proof.
  destruct (is_ok_true _ (eq_trans (transform_alert_is_ok Sample.linked Sample.noon)
                            eq_refl)) as (a & wa & Ha).
  destruct (is_ok_true _ (eq_trans (transform_case_is_ok Sample.linked Sample.noon)
                            eq_refl)) as (c & wc & Hc).
  exists a, c, wa, wc. split; [exact Ha|]. split; [exact Hc|].
  apply (proj1 (proj2 (alert_keeps_its_case _ _ _ _ _ _ a c eq_refl Ha Hc)));
    [reflexivity | vm_compute; discriminate].
Defined.

(** Every child record is linked to its client: when the [client_id] of a
    child row and of a client row have the same stripped text, the record
    of the child carries the identifier of the client. *)
Theorem children_link_to_client
  (rc r : row) (v v' : pyval) (w0 w0' w w' : World) (c : Client.t) (rr : RiskResult.t) :
  rc !! "client_id" = Some v ->
  r !! "client_id" = Some v' ->
  Text.strip (Py.str v') = Text.strip (Py.str v) ->
  transform_client rc w0 = (Ok (c, rr), w0') ->
  (forall a, transform_address r w = (Ok a, w') ->
             ClientAddressHistory.client_id a = Client.client_id c)
  /\ (forall a, transform_phone r w = (Ok a, w') ->
                ClientPhoneHistory.client_id a = Client.client_id c)
  /\ (forall a, transform_login r w = (Ok a, w') ->
                LoginActivity.client_id a = Client.client_id c)
  /\ (forall a, transform_transaction r w = (Ok a, w') ->
                Transaction.client_id a = Client.client_id c)
  /\ (forall a, transform_case r w = (Ok a, w') -> Case.client_id a = Client.client_id c)
  /\ (forall a, transform_alert r w = (Ok a, w') -> Alert.client_id a = Client.client_id c).
Proof.
  intros Hv Hv' Htext Hc.
  apply transform_client_inv in Hc as (_ & (v0 & Hv0 & ->) & _).
  assert (v0 = v) as -> by congruence.
  rewrite <- (norm_client_id_same_text v' v Htext).
  now apply child_client_ids.
Qed.

Lemma children_link_to_client_witness :
  exists c rr w1 t w2,
    transform_client Example.client_row Sample.noon = (Ok (c, rr), w1)
    /\ transform_transaction Sample.int_child Sample.noon = (Ok t, w2)
    /\ Transaction.client_id t = Client.client_id c.
Proof.
  destruct (is_ok_true _ (eq_trans (transform_client_is_ok Example.client_row Sample.noon)
                            eq_refl)) as ([c rr] & w1 & Hc).
  destruct (is_ok_true _ (eq_trans (transform_transaction_is_ok Sample.int_child
                                      Sample.noon) eq_refl)) as (t & w2 & Ht).
  exists c, rr, w1, t, w2. split; [exact Hc|]. split; [exact Ht|].
  destruct (children_link_to_client Example.client_row Sample.int_child
              (VStr "42") (VInt 42) Sample.noon w1 Sample.noon w2 c rr
              eq_refl eq_refl eq_refl Hc) as (_ & _ & _ & Htx & _).
  exact (Htx t Ht).
Defined.

(** ** Batches and runs *)

Section Batches.
Context {B C : Type} (f : row -> M B) (proj : B -> C) (g : row -> C).
Context (Hfg : forall r w o w', f r w = (Ok o, w') -> proj o = g r).

Lemma transform_all_fmap rows : forall w objs w',
  transform_all f rows w = (Ok objs, w') -> proj <$> objs = g <$> rows.
Proof.
  induction rows as [|r rows IH]; intros w objs w' H.
  - rewrite transform_all_nil in H. now simplify_eq.
  - rewrite transform_all_cons in H.
    destruct (f r w) as [[o|e] w1] eqn:Hr; [|discriminate].
    destruct (transform_all f rows w1) as [[objs'|e] w2] eqn:E; [|discriminate].
    simplify_eq. rewrite !fmap_cons. f_equal; eauto.
Qed.

End Batches.

Section Orders.

Lemma row_client_id_Some (r : row) v : r !! "client_id" = Some v -> norm_client_id v = row_client_id r.
Proof. intros H. unfold row_client_id. now rewrite (get_Some _ _ _ H). Qed.

Lemma transform_clients_ids rows : forall w cs rs w',
  transform_clients rows w = (Ok (cs, rs), w') ->
  Client.client_id <$> cs = row_client_id <$> rows
  /\ RiskResult.client_id <$> rs = row_client_id <$> rows.
Proof.
  induction rows as [|r rows IH]; intros w cs rs w' H.
  - cbn in H. unfold mret, M_ret in H. simplify_eq. split; reflexivity.
  - rewrite transform_clients_cons in H.
    destruct (transform_client r w) as [[[c rr]|e] w1] eqn:Hr; [|discriminate].
    destruct (transform_clients rows w1) as [[[cs' rs']|e] w2] eqn:E; [|discriminate].
    simplify_eq. apply IH in E as [E1 E2].
    apply transform_client_inv in Hr as (_ & (v & Hv & Hid) & Hrr & _).
    rewrite !fmap_cons, E1, E2, Hrr, Hid, (row_client_id_Some _ _ Hv). split; reflexivity.
Qed.

End Orders.

(** A batch keeps the order of its rows: the [i]-th record of every class
    carries the client identifier of the [i]-th row, and there is one
    record a row. *)
Theorem batches_keep_the_order_of_rows (rows : list row) (w w' : World) :
  (forall cs rs, transform_clients rows w = (Ok (cs, rs), w') ->
     Client.client_id <$> cs = row_client_id <$> rows
     /\ RiskResult.client_id <$> rs = row_client_id <$> rows)
  /\ (forall objs, transform_all transform_address rows w = (Ok objs, w') ->
        ClientAddressHistory.client_id <$> objs = row_client_id <$> rows)
  /\ (forall objs, transform_all transform_phone rows w = (Ok objs, w') ->
        ClientPhoneHistory.client_id <$> objs = row_client_id <$> rows)
  /\ (forall objs, transform_all transform_login rows w = (Ok objs, w') ->
        LoginActivity.client_id <$> objs = row_client_id <$> rows)
  /\ (forall objs, transform_all transform_transaction rows w = (Ok objs, w') ->
        Transaction.client_id <$> objs = row_client_id <$> rows)
  /\ (forall objs, transform_all transform_case rows w = (Ok objs, w') ->
        Case.client_id <$> objs = row_client_id <$> rows)
  /\ (forall objs, transform_all transform_alert rows w = (Ok objs, w') ->
        Alert.client_id <$> objs = row_client_id <$> rows).
Proof.
  split; [intros cs rs H; eapply transform_clients_ids; eauto|].
  repeat split; intros objs H;
    (eapply transform_all_fmap; [|exact H]); intros r w1 o w2 Ho.
  - apply transform_address_inv in Ho as (_ & (v & Hv & ->) & _).
    now apply row_client_id_Some.
  - apply transform_phone_inv in Ho as (_ & (v & Hv & ->) & _).
    now apply row_client_id_Some.
  - apply transform_login_inv in Ho as (_ & _ & (v & Hv & ->) & _).
    now apply row_client_id_Some.
  - apply transform_transaction_inv in Ho as (_ & _ & (v & Hv & ->) & _).
    now apply row_client_id_Some.
  - apply transform_case_inv in Ho as (_ & _ & (v & Hv & ->) & _).
    now apply row_client_id_Some.
  - apply transform_alert_inv in Ho as (_ & _ & (v & Hv & ->) & _).
    now apply row_client_id_Some.
Qed.

Lemma batches_keep_the_order_of_rows_witness :
  exists objs w',
    transform_all transform_case [Example.child_row; Sample.int_child] Sample.noon
      = (Ok objs, w')
    /\ Case.client_id <$> objs = ["C0000007"; "C0000042"].
Proof.
  destruct (is_ok_true _ (eq_trans (transform_all_is_ok _ _ transform_case_is_ok
                                      [Example.child_row; Sample.int_child] Sample.noon)
                            eq_refl)) as (objs & w' & H).
  exists objs, w'. split; [exact H|].
  destruct (batches_keep_the_order_of_rows [Example.child_row; Sample.int_child]
              Sample.noon w') as (_ & _ & _ & _ & _ & Hcase & _).
  rewrite (Hcase objs H). vm_compute. reflexivity.
Defined.

Section Runs.

Ltac rows_ok :=
  norm_db; unfold all_rows_ok;
  repeat match goal with
  | H : forallb _ _ = _ |- _ => rewrite H; clear H
  end;
  reflexivity.

Lemma main_is_ok c u src w db :
  is_ok (main (Some (String c u)) src (w, db)).1 = all_rows_ok src.
Proof.
  unfold main, try_finally, load.
  unfold extract_clients, extract_addresses, extract_phones, extract_ip_logs,
    extract_transactions, extract_cases, extract_alerts.
  run_binds.
  destruct (transform_clients_outcome (client_information src) w)
    as [w1 [[Hok (cs & rs & E & Hcs & Hrs)] | [Hok (e & E)]]];
    [|rewrite run_eq, E; rows_ok].
  rewrite run_eq, E. cbn [fst snd]. run_binds.
  stage_with transform_address_is_ok objs_address Hlen_address rows_ok.
  stage_with transform_phone_is_ok objs_phone Hlen_phone rows_ok.
  stage_with transform_login_is_ok objs_login Hlen_login rows_ok.
  stage_with transform_transaction_is_ok objs_transaction Hlen_transaction rows_ok.
  stage_with transform_case_is_ok objs_case Hlen_case rows_ok.
  stage_with transform_alert_is_ok objs_alert Hlen_alert rows_ok.
  unfold mret, Run_ret. rows_ok.
Qed.

Lemma migrate_forgets c u src w store store' :
  migrate (Some (String c u)) src w store = migrate (Some (String c u)) src w store'.
Proof.
  unfold migrate, main, try_finally, load. run_binds. reflexivity.
Qed.

Lemma migrate_keeps_clients c u src w store cs rs w' :
  transform_clients (client_information src) w = (Ok (cs, rs), w') ->
  clients (migrate (Some (String c u)) src w store) = cs
  /\ risk_results (migrate (Some (String c u)) src w store) = rs.
Proof.
  intros E. unfold migrate, main, try_finally, load.
  unfold extract_clients, extract_addresses, extract_phones, extract_ip_logs,
    extract_transactions, extract_cases, extract_alerts.
  run_binds. rewrite run_eq, E. cbn [fst snd]. run_binds.
  stage_with transform_address_is_ok objs_address Hlen_address
    ltac:(norm_db; split; reflexivity).
  stage_with transform_phone_is_ok objs_phone Hlen_phone
    ltac:(norm_db; split; reflexivity).
  stage_with transform_login_is_ok objs_login Hlen_login
    ltac:(norm_db; split; reflexivity).
  stage_with transform_transaction_is_ok objs_transaction Hlen_transaction
    ltac:(norm_db; split; reflexivity).
  stage_with transform_case_is_ok objs_case Hlen_case
    ltac:(norm_db; split; reflexivity).
  stage_with transform_alert_is_ok objs_alert Hlen_alert
    ltac:(norm_db; split; reflexivity).
  unfold mret, Run_ret. norm_db. split; reflexivity.
Qed.

End Runs.

(** A run that completes had a source configured and every row of every
    table accepted: without a source configured, main raises
    [RuntimeError] before it touches the store or reads the world, and
    with one, a row that its transform rejects makes the run raise. *)
Theorem a_run_completes_only_when
  (SOURCE_DB_URL : option string) (src : Source) (w : World) (db : Session) :
  (is_ok (main SOURCE_DB_URL src (w, db)).1 = true ->
   configured SOURCE_DB_URL = true /\ all_rows_ok src = true)
  /\ (configured SOURCE_DB_URL = false ->
      main SOURCE_DB_URL src (w, db) = (Raise RuntimeError, (w, db)))
  /\ (all_rows_ok src = false -> is_ok (main SOURCE_DB_URL src (w, db)).1 = false).
Proof.
  split; [|split].
  - destruct SOURCE_DB_URL as [[|c u]|]; [discriminate | | discriminate].
    rewrite main_is_ok. intros H. split; [reflexivity | exact H].
  - destruct SOURCE_DB_URL as [[|c u]|]; [reflexivity | discriminate | reflexivity].
  - destruct SOURCE_DB_URL as [[|c u]|]; [reflexivity | | reflexivity].
    rewrite main_is_ok. auto.
Qed.

Lemma a_run_completes_only_when_witness :
  is_ok (main (Some "postgresql://source") Example.source
           (Sample.noon, settled Sample.empty_store)).1 = true
  /\ all_rows_ok Example.source = true
  /\ all_rows_ok Sample.broken_source = false
  /\ is_ok (main (Some "postgresql://source") Sample.broken_source
              (Sample.noon, settled Sample.empty_store)).1 = false
  /\ main None Example.source (Sample.noon, settled Example.stale_store)
     = (Raise RuntimeError, (Sample.noon, settled Example.stale_store)).
Proof.
  assert (is_ok (main (Some "postgresql://source") Example.source
                   (Sample.noon, settled Sample.empty_store)).1 = true) as Hok
    by exact (eq_trans (main_is_ok "p" "ostgresql://source" Example.source
                          Sample.noon (settled Sample.empty_store)) eq_refl).
  assert (all_rows_ok Sample.broken_source = false) as Hbad by reflexivity.
  split; [exact Hok|].
  split; [exact (proj2 (proj1 (a_run_completes_only_when _ _ _ _) Hok))|].
  split; [exact Hbad|].
  split; [exact (proj2 (proj2 (a_run_completes_only_when
                                 (Some "postgresql://source") Sample.broken_source
                                 Sample.noon (settled Sample.empty_store))) Hbad)|].
  exact (proj1 (proj2 (a_run_completes_only_when None Example.source Sample.noon
                         (settled Example.stale_store))) eq_refl).
Defined.

(** With a source configured, nothing of what the store held survives a
    run: the store it leaves is the same from any prior store.  Without
    one, the store is left exactly as it was. *)
Theorem run_replaces_the_store
  (SOURCE_DB_URL : option string) (src : Source) (w : World) (store store' : Target) :
  (configured SOURCE_DB_URL = true ->
   migrate SOURCE_DB_URL src w store = migrate SOURCE_DB_URL src w store')
  /\ (configured SOURCE_DB_URL = false -> migrate SOURCE_DB_URL src w store = store).
Proof.
  destruct SOURCE_DB_URL as [[|c u]|]; split; try discriminate; try reflexivity.
  all: intros _; apply migrate_forgets.
Qed.

Lemma run_replaces_the_store_witness :
  migrate (Some "postgresql://source") Example.source Sample.noon Example.stale_store
  = migrate (Some "postgresql://source") Example.source Sample.noon Sample.empty_store.
Proof.
  exact (proj1 (run_replaces_the_store (Some "postgresql://source") Example.source
                  Sample.noon Example.stale_store Sample.empty_store) eq_refl).
Defined.

(** Clients and risk results are committed before the other classes are
    transformed: when the client rows are accepted the store holds one
    client and one risk result for each, in order, whatever happens to the
    later classes. *)
Theorem clients_are_loaded_first
  (SOURCE_DB_URL : option string) (src : Source) (w : World) (store : Target) :
  configured SOURCE_DB_URL = true ->
  forallb client_row_ok (client_information src) = true ->
  Client.client_id <$> clients (migrate SOURCE_DB_URL src w store)
    = row_client_id <$> client_information src
  /\ RiskResult.client_id <$> risk_results (migrate SOURCE_DB_URL src w store)
     = row_client_id <$> client_information src.
Proof.
  intros Hc Hok. destruct SOURCE_DB_URL as [[|c u]|]; try discriminate.
  destruct (transform_clients_outcome (client_information src) w)
    as [w' [[_ (cs & rs & E & _)] | [Hno _]]]; [|congruence].
  destruct (migrate_keeps_clients c u src w store cs rs w' E) as [-> ->].
  eapply transform_clients_ids; eauto.
Qed.

Lemma clients_are_loaded_first_witness :
  all_rows_ok Sample.broken_source = false
  /\ Client.client_id
       <$> clients (migrate (Some "postgresql://source") Sample.broken_source
                      Sample.noon Sample.empty_store)
     = ["C0000042"; "C0000042"].
Proof.
  split; [vm_compute; reflexivity|].
  rewrite (proj1 (clients_are_loaded_first (Some "postgresql://source") Sample.broken_source
                    Sample.noon Sample.empty_store eq_refl eq_refl)).
  vm_compute. reflexivity.
Defined.

(** ** Fields *)

Section Fields.
Import Text.

Lemma bounded_str_length v d n s :
  bounded_str v d n = Ok s -> (String.length s <= n)%nat.
Proof.
  unfold bounded_str, Py.slice. destruct (Py.or_ v (VStr d)); try discriminate.
  intros H. simplify_eq. apply slice_to_length.
Qed.

Lemma bounded_str_default v d n s :
  Py.truthy v = false -> bounded_str v d n = Ok s -> s = slice_to n d.
Proof.
  unfold bounded_str, Py.or_. intros ->. unfold Py.slice. intros H. now simplify_eq.
Qed.

Lemma numeric_default v f : Py.truthy v = false -> numeric v = Ok f -> f = 0%float.
Proof.
  unfold numeric, Py.or_. intros ->. unfold Py.float_, Py.float_of_Z. intros H.
  vm_compute in H. now simplify_eq.
Qed.

End Fields.

Ltac bounds :=
  simplify_eq; cbn -[norm_client_id Text.slice_to Py.str String.length];
  repeat apply conj;
  first [ apply slice_to_length | eapply bounded_str_length; eassumption ].

(** Every field that is sliced stays within its bound, in every record of
    every class. *)
Theorem sliced_fields_keep_their_bounds (r : row) (w w' : World) :
  (forall c rr, transform_client r w = (Ok (c, rr), w') ->
     (String.length (Client.full_name c) <= 120
      /\ String.length (Client.gender c) <= 16
      /\ String.length (Client.country c) <= 64
      /\ String.length (Client.city c) <= 64
      /\ String.length (Client.segment c) <= 40
      /\ String.length (Client.occupation c) <= 80
      /\ String.length (Client.risk_rating c) <= 16)%nat)
  /\ (forall a, transform_address r w = (Ok a, w') ->
        (String.length (ClientAddressHistory.address_line a) <= 160
         /\ String.length (ClientAddressHistory.city a) <= 64
         /\ String.length (ClientAddressHistory.country a) <= 64)%nat)
  /\ (forall a, transform_phone r w = (Ok a, w') ->
        (String.length (ClientPhoneHistory.phone a) <= 40)%nat)
  /\ (forall a, transform_login r w = (Ok a, w') ->
        (String.length (LoginActivity.login_id a) <= 40
         /\ String.length (LoginActivity.ip_address a) <= 64
         /\ String.length (LoginActivity.ip_country a) <= 8
         /\ String.length (LoginActivity.status a) <= 16
         /\ String.length (LoginActivity.channel a) <= 24)%nat)
  /\ (forall a, transform_transaction r w = (Ok a, w') ->
        (String.length (Transaction.tx_id a) <= 32
         /\ String.length (Transaction.counterparty_id a) <= 24
         /\ String.length (Transaction.tx_type a) <= 16
         /\ String.length (Transaction.direction a) <= 16
         /\ String.length (Transaction.currency a) <= 8
         /\ String.length (Transaction.channel a) <= 24
         /\ String.length (Transaction.country a) <= 64)%nat)
  /\ (forall a, transform_case r w = (Ok a, w') ->
        (String.length (Case.status a) <= 20 /\ String.length (Case.title a) <= 180)%nat)
  /\ (forall a, transform_alert r w = (Ok a, w') ->
        (String.length (Alert.alert_id a) <= 40
         /\ String.length (Alert.severity a) <= 16
         /\ String.length (Alert.status a) <= 16)%nat).
Proof.
  split; [|split; [|split; [|split; [|split; [|split]]]]].
  - intros c rr H. unfold transform_client in H. mrun H. all: bounds.
  - intros a H. unfold transform_address in H. mrun H. all: bounds.
  - intros a H. unfold transform_phone in H. mrun H. all: bounds.
  - intros a H. unfold transform_login in H. mrun H. all: bounds.
  - intros a H. unfold transform_transaction in H. mrun H. all: bounds.
  - intros a H. unfold transform_case in H. mrun H. all: bounds.
  - intros a H. unfold transform_alert in H. mrun H. all: bounds.
Qed.

Lemma sliced_fields_keep_their_bounds_witness :
  exists c rr w',
    transform_client Example.long_name_row Sample.noon = (Ok (c, rr), w')
    /\ (String.length (Client.full_name c) <= 120)%nat.
Proof.
  destruct (is_ok_true _ (eq_trans (transform_client_is_ok Example.long_name_row
                                      Sample.noon) eq_refl)) as ([c rr] & w' & H).
  exists c, rr, w'. split; [exact H|].
  destruct (sliced_fields_keep_their_bounds Example.long_name_row Sample.noon w')
    as (Hc & _).
  exact (proj1 (Hc c rr H)).
Defined.

Ltac default_field :=
  let Hf := fresh "Hf" in
  intros Hf;
  first
    [ match goal with
      | Hb : bounded_str ?v _ _ = Ok _, Hf : Py.truthy ?v = false |- _ =>
          rewrite (bounded_str_default _ _ _ _ Hf Hb); reflexivity
      end
    | match goal with
      | Hb : numeric ?v = Ok _, Hf : Py.truthy ?v = false |- _ =>
          rewrite (numeric_default _ _ Hf Hb); reflexivity
      end
    | unfold mapping, Py.or_; rewrite Hf; reflexivity
    | rewrite Hf; reflexivity
    | congruence
    | rewrite Hf in *; discriminate ].

Ltac defaults :=
  simplify_eq; cbn -[norm_client_id Text.slice_to Py.str String.length mapping];
  repeat apply conj; default_field.

(** The defaults of a transaction: each field that is absent, null or
    falsy takes the default of the script, and a missing identifier is the
    first 32 digits of a fresh UUID. *)
Theorem transaction_defaults (r : row) (w : World) :
  transaction_row_ok r = true ->
  exists a w',
    transform_transaction r w = (Ok a, w')
    /\ (Py.truthy (get r "tx_id") = false ->
        Transaction.tx_id a = Text.slice_to 32 (uuid4_hex w (uuid_draws w)))
    /\ (Py.truthy (get r "counterparty_id") = false ->
        Transaction.counterparty_id a = "CP000000")
    /\ (Py.truthy (get r "tx_type") = false -> Transaction.tx_type a = "wire")
    /\ (Py.truthy (get r "direction") = false -> Transaction.direction a = "outgoing")
    /\ (Py.truthy (get r "amount") = false -> Transaction.amount a = 0%float)
    /\ (Py.truthy (get r "currency") = false -> Transaction.currency a = "USD")
    /\ (Py.truthy (get r "channel") = false -> Transaction.channel a = "web")
    /\ (Py.truthy (get r "country") = false -> Transaction.country a = "Unknown")
    /\ (get r "timestamp" = VNone -> Transaction.timestamp a = utcnow w (clock_reads w))
    /\ (Py.truthy (get r "typology_tags") = false ->
        Transaction.typology_tags a = empty_dict).
Proof.
  intros Hok. rewrite <- (transform_transaction_is_ok r w) in Hok.
  apply is_ok_true in Hok as (a & w' & E). exists a, w'. split; [exact E|].
  unfold transform_transaction in E. mrun E. all: defaults.
Qed.

Lemma transaction_defaults_witness :
  exists a w',
    transform_transaction Example.child_row Sample.noon = (Ok a, w')
    /\ Transaction.tx_type a = "wire" /\ Transaction.currency a = "USD"
    /\ Transaction.amount a = 0%float.
Proof.
  destruct (transaction_defaults Example.child_row Sample.noon eq_refl)
    as (a & w' & H & _ & _ & Hty & _ & Ham & Hcur & _).
  exists a, w'. split; [exact H|].
  split; [exact (Hty eq_refl)|]. split; [exact (Hcur eq_refl)|exact (Ham eq_refl)].
Defined.

(** The defaults of a case: a null identifier is synthesized as [CASE-]
    and the first 20 digits of a fresh UUID, a falsy status is [Open], a
    null opening time is the time of the run, a falsy closing time stays
    null, and a falsy title is [Imported case]. *)
Theorem case_defaults (r : row) (w : World) :
  case_row_ok r = true ->
  exists c w',
    transform_case r w = (Ok c, w')
    /\ (get r "case_id" = VNone ->
        Case.case_id c = "CASE-" +:+ Text.slice_to 20 (uuid4_hex w (uuid_draws w)))
    /\ (Py.truthy (get r "status") = false -> Case.status c = "Open")
    /\ (get r "opened_at" = VNone -> Case.opened_at c = utcnow w (clock_reads w))
    /\ (Py.truthy (get r "closed_at") = false -> Case.closed_at c = None)
    /\ (Py.truthy (get r "title") = false -> Case.title c = "Imported case").
Proof.
  intros Hok. rewrite <- (transform_case_is_ok r w) in Hok.
  apply is_ok_true in Hok as (c & w' & E). exists c, w'. split; [exact E|].
  unfold transform_case in E. mrun E. all: defaults.
Qed.

Lemma case_defaults_witness :
  exists c w',
    transform_case Example.child_row Sample.noon = (Ok c, w')
    /\ Case.status c = "Open" /\ Case.closed_at c = None /\ Case.title c = "Imported case".
Proof.
  destruct (case_defaults Example.child_row Sample.noon eq_refl)
    as (c & w' & H & _ & Hst & _ & Hcl & Hti).
  exists c, w'. split; [exact H|].
  split; [exact (Hst eq_refl)|]. split; [exact (Hcl eq_refl)|exact (Hti eq_refl)].
Defined.

Section NullIds.
Import Text.

Lemma strip_blank s : strip s = "" -> norm_client_id (VStr s) = "C0000000".
Proof. intros H. unfold norm_client_id. simpl Py.str. now rewrite H. Qed.

End NullIds.

(** A row whose [client_id] is a column but null, or blank text, is not
    rejected: null is read as the text [None] and gives [C000None], blank
    text gives [C0000000]. *)
Theorem null_client_id_is_accepted (r : row) (w : World) :
  client_row_ok r = true ->
  exists c rr w',
    transform_client r w = (Ok (c, rr), w')
    /\ (r !! "client_id" = Some VNone ->
        Client.client_id c = "C000None" /\ RiskResult.client_id rr = "C000None")
    /\ (forall s, r !! "client_id" = Some (VStr s) -> Text.strip s = "" ->
        Client.client_id c = "C0000000" /\ RiskResult.client_id rr = "C0000000").
Proof.
  intros Hok. rewrite <- (transform_client_is_ok r w) in Hok.
  apply is_ok_true in Hok as ([c rr] & w' & E). exists c, rr, w'. split; [exact E|].
  apply transform_client_inv in E as (_ & (v & Hv & Hid) & Hrr & _).
  split.
  - intros Hnull. rewrite Hnull in Hv. simplify_eq. rewrite Hrr, Hid. split; reflexivity.
  - intros s Hs Hblank. rewrite Hs in Hv. simplify_eq.
    rewrite Hrr, Hid, (strip_blank s Hblank). split; reflexivity.
Qed.

Lemma null_client_id_is_accepted_witness :
  (exists c rr w',
     transform_client Sample.null_id_row Sample.noon = (Ok (c, rr), w')
     /\ Client.client_id c = "C000None")
  /\ (exists c rr w',
        transform_client Sample.blank_id_row Sample.noon = (Ok (c, rr), w')
        /\ Client.client_id c = "C0000000").
Proof.
  split.
  - destruct (null_client_id_is_accepted Sample.null_id_row Sample.noon eq_refl)
      as (c & rr & w' & H & Hnull & _).
    exists c, rr, w'. split; [exact H|]. exact (proj1 (Hnull eq_refl)).
  - destruct (null_client_id_is_accepted Sample.blank_id_row Sample.noon eq_refl)
      as (c & rr & w' & H & _ & Hblank).
    exists c, rr, w'. split; [exact H|]. exact (proj1 (Hblank "  " eq_refl eq_refl)).
Defined.

(** The dates of a client: text the parser rejects gives 1990-01-01 as date
    of birth and today as opening date; text it reads gives the date read,
    without the time; a datetime is kept as it is. *)
Theorem client_dates (r : row) (w : World) :
  client_row_ok r = true ->
  exists c rr w',
    transform_client r w = (Ok (c, rr), w')
    /\ (forall s, get r "dob" = VStr s -> fromisoformat w s = None ->
        Client.dob c = ADate (mkdate 1990 1 1))
    /\ (forall s t, get r "dob" = VStr s -> fromisoformat w s = Some t ->
        Client.dob c = ADate (dt_date t))
    /\ (forall t, get r "dob" = VDateTime t -> Client.dob c = ADateTime t)
    /\ (forall s, get r "account_open_date" = VStr s -> fromisoformat w s = None ->
        Client.account_open_date c = ADate (today w (clock_reads w)))
    /\ (get r "account_open_date" = VNone ->
        Client.account_open_date c = ADate (today w (clock_reads w))).
Proof.
  intros Hok. rewrite <- (transform_client_is_ok r w) in Hok.
  apply is_ok_true in Hok as ([c rr] & w' & E). exists c, rr, w'. split; [exact E|].
  apply transform_client_inv in E as (_ & _ & _ & _ & Hdob & _ & Hopen & _).
  rewrite Hdob, Hopen. repeat apply conj.
  - intros s -> Hs. simpl. now rewrite Hs.
  - intros s t -> Hs. simpl. now rewrite Hs.
  - now intros t ->.
  - intros s -> Hs. simpl. now rewrite Hs.
  - now intros ->.
Qed.

Lemma client_dates_witness :
  exists c rr w',
    transform_client Sample.dated_row Sample.noon = (Ok (c, rr), w')
    /\ Client.dob c = ADate (mkdate 1985 7 21)
    /\ Client.account_open_date c = ADate (mkdate 2024 3 5).
Proof.
  destruct (client_dates Sample.dated_row Sample.noon eq_refl)
    as (c & rr & w' & H & _ & Hdob & _ & Hopen & _).
  exists c, rr, w'. split; [exact H|]. split.
  - exact (Hdob "1985-07-21" (mkdatetime (mkdate 1985 7 21) 0 0 0 0 None) eq_refl eq_refl).
  - exact (Hopen "soon" eq_refl eq_refl).
Defined.

Ltac counters :=
  simplify_eq; use_truthy; cbn -[norm_client_id Text.slice_to Py.str];
  repeat apply conj; lia.

(** What a transform reads of the world: the clock a fixed number of
    times, and a UUID only for an identifier it has to synthesize; the
    client, address and phone transforms never draw one. *)
Theorem transforms_draw_only_what_they_need (r : row) (w w' : World) :
  (forall c rr, transform_client r w = (Ok (c, rr), w') ->
     clock_reads w' = (clock_reads w + 2)%nat /\ uuid_draws w' = uuid_draws w)
  /\ (forall a, transform_address r w = (Ok a, w') ->
        clock_reads w' = (clock_reads w + 1)%nat /\ uuid_draws w' = uuid_draws w)
  /\ (forall a, transform_phone r w = (Ok a, w') ->
        clock_reads w' = (clock_reads w + 1)%nat /\ uuid_draws w' = uuid_draws w)
  /\ (forall a, transform_login r w = (Ok a, w') ->
        clock_reads w' = (clock_reads w + 1)%nat
        /\ uuid_draws w'
           = (uuid_draws w + if Py.truthy (get r "log_id") then 0 else 1)%nat)
  /\ (forall a, transform_transaction r w = (Ok a, w') ->
        clock_reads w' = (clock_reads w + 1)%nat
        /\ uuid_draws w'
           = (uuid_draws w + if Py.truthy (get r "tx_id") then 0 else 1)%nat)
  /\ (forall a, transform_case r w = (Ok a, w') ->
        clock_reads w'
        = (clock_reads w + if Py.truthy (get r "closed_at") then 2 else 1)%nat
        /\ uuid_draws w'
           = (uuid_draws w
              + if Py.truthy (VStr (case_text (get r "case_id"))) then 0 else 1)%nat)
  /\ (forall a, transform_alert r w = (Ok a, w') ->
        clock_reads w' = (clock_reads w + 1)%nat
        /\ uuid_draws w'
           = (uuid_draws w
              + (if Py.truthy (get r "alert_id") then 0 else 1)
              + (if Py.truthy (get r "case_id")
                    && negb (Py.truthy (VStr (case_text (get r "case_id"))))
                 then 1 else 0))%nat).
Proof.
  split; [|split; [|split; [|split; [|split; [|split]]]]].
  - intros c rr H. unfold transform_client in H. mrun H. all: counters.
  - intros a H. unfold transform_address in H. mrun H. all: counters.
  - intros a H. unfold transform_phone in H. mrun H. all: counters.
  - intros a H. unfold transform_login in H. mrun H. all: counters.
  - intros a H. unfold transform_transaction in H. mrun H. all: counters.
  - intros a H. unfold transform_case in H. mrun H. all: counters.
  - intros a H. unfold transform_alert in H. mrun H. all: counters.
Qed.

Lemma transforms_draw_only_what_they_need_witness :
  exists a w',
    transform_alert Example.blank_case_alert Sample.noon = (Ok a, w')
    /\ clock_reads w' = 1%nat /\ uuid_draws w' = 2%nat.
Proof.
  destruct (is_ok_true _ (eq_trans (transform_alert_is_ok Example.blank_case_alert
                                      Sample.noon) eq_refl)) as (a & w' & H).
  exists a, w'. split; [exact H|].
  destruct (transforms_draw_only_what_they_need Example.blank_case_alert Sample.noon w')
    as (_ & _ & _ & _ & _ & _ & Hal).
  exact (Hal a H).
Defined.

(** ** More defaults *)

Section MoreFields.

Lemma flag_default v z : Py.truthy v = false -> flag v = Ok z -> z = 0%Z.
Proof. unfold flag, Py.or_. intros ->. simpl. congruence. Qed.

End MoreFields.

(** The other defaults of a client, and what its risk result is given: a
    score of 35 when the rating is defaulted, no rule hits, a fixed reason,
    and the time of the second reading of the clock, the first being the
    one for the opening date. *)
Theorem client_field_defaults (r : row) (w : World) :
  client_row_ok r = true ->
  exists c rr w',
    transform_client r w = (Ok (c, rr), w')
    /\ (Py.truthy (get r "gender") = false -> Client.gender c = "X")
    /\ (Py.truthy (get r "country") = false -> Client.country c = "Unknown")
    /\ (Py.truthy (get r "city") = false -> Client.city c = "Unknown")
    /\ (Py.truthy (get r "segment") = false -> Client.segment c = "retail")
    /\ (Py.truthy (get r "occupation") = false -> Client.occupation c = "unknown")
    /\ (Py.truthy (get r "annual_income") = false -> Client.annual_income c = 0%float)
    /\ (Py.truthy (get r "pep_flag") = false -> Client.pep_flag c = 0%Z)
    /\ (Py.truthy (get r "sanctions_flag") = false -> Client.sanctions_flag c = 0%Z)
    /\ (Py.truthy (get r "profile_text") = false -> Client.profile_text c = VStr "")
    /\ (Py.truthy (get r "risk_rating") = false ->
        Client.risk_rating c = "Standard" /\ RiskResult.risk_score rr = 35.0%float)
    /\ RiskResult.rule_hits rr = empty_dict
    /\ RiskResult.model_reason rr = "Imported from production source"
    /\ RiskResult.last_updated rr = utcnow w (S (clock_reads w)).
Proof.
  intros Hok. rewrite <- (transform_client_is_ok r w) in Hok.
  apply is_ok_true in Hok as ([c rr] & w' & E). exists c, rr, w'. split; [exact E|].
  unfold transform_client in E. mrun E.
  all: simplify_eq; cbn -[norm_client_id Text.slice_to Py.str String.length mapping].
  all: repeat apply conj; try reflexivity.
  all: try default_field.
  all: intros Hf;
    first [ eapply flag_default; eassumption
          | match goal with
            | Hb : bounded_str _ "Standard" _ = Ok _ |- _ =>
                rewrite (bounded_str_default _ _ _ _ Hf Hb); split; reflexivity
            end ].
Qed.

Lemma client_field_defaults_witness :
  exists c rr w',
    transform_client Example.client_row Sample.noon = (Ok (c, rr), w')
    /\ Client.gender c = "X" /\ Client.pep_flag c = 0%Z
    /\ Client.risk_rating c = "Standard" /\ RiskResult.risk_score rr = 35.0%float.
Proof.
  destruct (client_field_defaults Example.client_row Sample.noon eq_refl)
    as (c & rr & w' & H & Hg & _ & _ & _ & _ & _ & Hp & _ & _ & Hr & _).
  exists c, rr, w'. split; [exact H|].
  split; [exact (Hg eq_refl)|]. split; [exact (Hp eq_refl)|]. exact (Hr eq_refl).
Defined.

(** The defaults of the address and phone histories: a null start date, or
    one that is no date, is today, not 1990-01-01. *)
Theorem history_defaults (r : row) (w : World) :
  (address_row_ok r = true ->
   exists a w',
     transform_address r w = (Ok a, w')
     /\ (Py.truthy (get r "address_line") = false -> ClientAddressHistory.address_line a = "")
     /\ (Py.truthy (get r "city") = false -> ClientAddressHistory.city a = "Unknown")
     /\ (Py.truthy (get r "country") = false -> ClientAddressHistory.country a = "Unknown")
     /\ (get r "from_date" = VNone ->
         ClientAddressHistory.from_date a = ADate (today w (clock_reads w)))
     /\ (forall s, get r "from_date" = VStr s -> fromisoformat w s = None ->
         ClientAddressHistory.from_date a = ADate (today w (clock_reads w))))
  /\ (phone_row_ok r = true ->
      exists a w',
        transform_phone r w = (Ok a, w')
        /\ (Py.truthy (get r "phone") = false -> ClientPhoneHistory.phone a = "")
        /\ (get r "from_date" = VNone ->
            ClientPhoneHistory.from_date a = ADate (today w (clock_reads w)))
        /\ (forall s, get r "from_date" = VStr s -> fromisoformat w s = None ->
            ClientPhoneHistory.from_date a = ADate (today w (clock_reads w)))).
Proof.
  split; intros Hok.
  - rewrite <- (transform_address_is_ok r w) in Hok.
    apply is_ok_true in Hok as (a & w' & E). exists a, w'. split; [exact E|].
    unfold transform_address in E. mrun E.
    all: simplify_eq; cbn -[norm_client_id Text.slice_to Py.str String.length mapping].
    all: repeat apply conj; try default_field.
    all: intros s Hs Hnone; rewrite Hs in *; simpl in *; rewrite Hnone in *; reflexivity.
  - rewrite <- (transform_phone_is_ok r w) in Hok.
    apply is_ok_true in Hok as (a & w' & E). exists a, w'. split; [exact E|].
    unfold transform_phone in E. mrun E.
    all: simplify_eq; cbn -[norm_client_id Text.slice_to Py.str String.length mapping].
    all: repeat apply conj; try default_field.
    all: intros s Hs Hnone; rewrite Hs in *; simpl in *; rewrite Hnone in *; reflexivity.
Qed.

Lemma history_defaults_witness :
  exists a w',
    transform_address Example.child_row Sample.noon = (Ok a, w')
    /\ ClientAddressHistory.address_line a = ""
    /\ ClientAddressHistory.from_date a = ADate (mkdate 2024 3 5).
Proof.
  destruct (proj1 (history_defaults Example.child_row Sample.noon) eq_refl)
    as (a & w' & H & Hl & _ & _ & Hf & _).
  exists a, w'. split; [exact H|]. split; [exact (Hl eq_refl) | exact (Hf eq_refl)].
Defined.

(** The defaults of a login and of an alert; the description of an alert
    is kept whole, whatever its length and type. *)
Theorem login_and_alert_defaults (r : row) (w : World) :
  (login_row_ok r = true ->
   exists a w',
     transform_login r w = (Ok a, w')
     /\ (Py.truthy (get r "ip_address") = false -> LoginActivity.ip_address a = "0.0.0.0")
     /\ (Py.truthy (get r "ip_country") = false -> LoginActivity.ip_country a = "UNK")
     /\ (Py.truthy (get r "status") = false -> LoginActivity.status a = "success")
     /\ (Py.truthy (get r "channel") = false -> LoginActivity.channel a = "web")
     /\ (get r "logged_in_at" = VNone ->
         LoginActivity.logged_in_at a = utcnow w (clock_reads w)))
  /\ (alert_row_ok r = true ->
      exists a w',
        transform_alert r w = (Ok a, w')
        /\ (Py.truthy (get r "severity") = false -> Alert.severity a = "Medium")
        /\ (Py.truthy (get r "status") = false -> Alert.status a = "Open")
        /\ (get r "created_at" = VNone -> Alert.created_at a = utcnow w (clock_reads w))
        /\ (Py.truthy (get r "description") = false ->
            Alert.description a = VStr "Imported alert")
        /\ (Py.truthy (get r "description") = true ->
            Alert.description a = get r "description")).
Proof.
  split; intros Hok.
  - rewrite <- (transform_login_is_ok r w) in Hok.
    apply is_ok_true in Hok as (a & w' & E). exists a, w'. split; [exact E|].
    unfold transform_login in E. mrun E.
    all: simplify_eq; cbn -[norm_client_id Text.slice_to Py.str String.length mapping].
    all: repeat apply conj; default_field.
  - rewrite <- (transform_alert_is_ok r w) in Hok.
    apply is_ok_true in Hok as (a & w' & E). exists a, w'. split; [exact E|].
    unfold transform_alert in E. mrun E.
    all: simplify_eq; cbn -[norm_client_id Text.slice_to Py.str String.length mapping].
    all: repeat apply conj; try default_field.
Qed.

Lemma login_and_alert_defaults_witness :
  exists a w',
    transform_alert Example.child_row Sample.noon = (Ok a, w')
    /\ Alert.severity a = "Medium" /\ Alert.description a = VStr "Imported alert".
Proof.
  destruct (proj2 (login_and_alert_defaults Example.child_row Sample.noon) eq_refl)
    as (a & w' & H & Hs & _ & _ & Hd & _).
  exists a, w'. split; [exact H|]. split; [exact (Hs eq_refl) | exact (Hd eq_refl)].
Defined.

(** ** A run, stage by stage *)

Ltac stops E := intros E; rewrite run_eq, E; norm_db; reflexivity.



(** ** Timestamps in UTC *)

Section Zulu.
Import Text.

Lemma replace_Z_app a b : replace_Z (a +:+ b) = replace_Z a +:+ replace_Z b.
Proof.
  induction a as [|c a IH]; [reflexivity|].
  rewrite append_cons. simpl replace_Z. rewrite IH.
  destruct (code c =? 90)%N; [|now rewrite append_cons].
  now rewrite !append_cons, append_nil.
Qed.

Lemma to_dt_same_text s s' d w :
  replace_Z s = replace_Z s' -> to_dt (VStr s) d w = to_dt (VStr s') d w.
Proof.
  intros H. destruct d as [t|]; [rewrite !to_dt_run_default | rewrite !to_dt_run];
    unfold coerced_datetime; simpl; now rewrite H.
Qed.

End Zulu.

(** [to_dt] reads a capital [Z] as the offset [+00:00], wherever it stands
    in the text: a timestamp written with [Z] and the same timestamp
    written with [+00:00] give the same result, whatever the parser makes
    of it.  [to_date] does not: it hands the text to the parser as it
    is. *)
Theorem to_dt_reads_Z_as_utc (s1 s2 : string) (d : option datetime) (dd : date_obj) (w : World) :
  to_dt (VStr (s1 +:+ "Z" +:+ s2)) d w = to_dt (VStr (s1 +:+ "+00:00" +:+ s2)) d w
  /\ to_dt (VStr (s1 +:+ "Z")) d w = to_dt (VStr (s1 +:+ "+00:00")) d w
  /\ (to_date (VStr s1) dd w).1
     = Ok (match fromisoformat w s1 with Some t => ADate (dt_date t) | None => dd end).
Proof.
  repeat apply conj.
  - apply to_dt_same_text. now rewrite !replace_Z_app.
  - apply to_dt_same_text. now rewrite !replace_Z_app.
  - rewrite to_date_run. simpl. now destruct (fromisoformat w s1).
Qed.

(** ** Numbers as text *)

Section NumericText.
Import Text.

Lemma digits_tail_string_of_uint u :
  Py.digits_tail (NilEmpty.string_of_uint u) = (uint_digits u, "").
Proof.
  induction u; [reflexivity|..];
    cbn [NilEmpty.string_of_uint Py.digits_tail uint_digits];
    match goal with
    | |- context [isdigit ?c] => replace (isdigit c) with true by reflexivity
    end; rewrite IHu; reflexivity.
Qed.

Lemma digitpart_string_of_uint u :
  u <> Decimal.Nil ->
  Py.digitpart (NilEmpty.string_of_uint u) = Some (uint_digits u, "").
Proof.
  destruct u; [congruence|..]; intros _;
    cbn [NilEmpty.string_of_uint Py.digitpart uint_digits];
    match goal with
    | |- context [isdigit ?c] => replace (isdigit c) with true by reflexivity
    end; rewrite digits_tail_string_of_uint; reflexivity.
Qed.

Lemma digits_acc u : forall acc,
  fold_left (fun acc d => 10 * acc + d)%Z (uint_digits u) (Z.pos acc)
  = Z.pos (Pos.of_uint_acc u acc).
Proof.
  induction u; intros acc; [reflexivity|..];
    cbn [uint_digits fold_left Pos.of_uint_acc]; rewrite <- IHu; f_equal;
    lia.
Qed.

Lemma digits_value u : Py.digits_to_Z (uint_digits u) = Z.of_N (Pos.of_uint u).
Proof.
  unfold Py.digits_to_Z. induction u; [reflexivity|..];
    cbn [uint_digits fold_left Pos.of_uint]; [exact IHu|..];
    match goal with
    | |- fold_left _ _ ?z = _ =>
        let p := eval cbv in (Z.to_pos z) in change z with (Z.pos p)
    end; rewrite digits_acc; reflexivity.
Qed.

Lemma digits_of_positive p : Py.digits_to_Z (uint_digits (Pos.to_uint p)) = Z.pos p.
Proof. now rewrite digits_value, DecimalPos.Unsigned.of_to. Qed.

Lemma digit_not_numeric_space c : isdigit c = true -> Py.is_numeric_space c = false.
Proof. destruct c as [[] [] [] [] [] [] [] []]; vm_compute; congruence. Qed.

Lemma digit_no_sign c : isdigit c = true -> (code c =? 45)%N = false /\ (code c =? 43)%N = false.
Proof. destruct c as [[] [] [] [] [] [] [] []]; vm_compute; intuition congruence. Qed.

Lemma digit_no_word c r :
  isdigit c = true ->
  String.eqb (lower (String c r)) "inf" = false
  /\ String.eqb (lower (String c r)) "infinity" = false
  /\ String.eqb (lower (String c r)) "nan" = false.
Proof.
  intros H. cbn [lower String.eqb].
  assert (Ascii.eqb (lower_char c) "i" = false /\ Ascii.eqb (lower_char c) "n" = false)
    as [-> ->]; [|auto].
  revert H. destruct c as [[] [] [] [] [] [] [] []]; vm_compute; intuition congruence.
Qed.

Lemma numeric_lstrip_digits s : all_digits s = true -> Py.numeric_lstrip s = s.
Proof.
  destruct s as [|c r]; [reflexivity|]. simpl. intros H.
  apply andb_true_iff in H as [Hc _]. now rewrite (digit_not_numeric_space c Hc).
Qed.

Lemma numeric_rstrip_digits s : all_digits s = true -> Py.numeric_rstrip s = s.
Proof.
  induction s as [|c r IH]; [reflexivity|]. simpl. intros H.
  apply andb_true_iff in H as [Hc Hr]. rewrite (IH Hr).
  destruct r; [now rewrite (digit_not_numeric_space c Hc) | reflexivity].
Qed.

Lemma numeric_rstrip_cons c r :
  Py.numeric_rstrip (String c r)
  = match Py.numeric_rstrip r with
    | "" => if Py.is_numeric_space c then "" else String c ""
    | r' => String c r'
    end.
Proof. reflexivity. Qed.

(** The text of a positive integer, as [int] and [float] take it apart. *)
Lemma positive_text p :
  exists c r,
    NilZero.string_of_uint (Pos.to_uint p) = String c r
    /\ isdigit c = true
    /\ all_digits (String c r) = true
    /\ Py.digitpart (String c r) = Some (uint_digits (Pos.to_uint p), "").
Proof.
  pose proof (DecimalPos.Unsigned.to_uint_nonnil p) as Hn.
  pose proof (all_digits_string_of_uint (Pos.to_uint p)) as Hd.
  pose proof (digitpart_string_of_uint _ Hn) as Hp.
  assert (NilZero.string_of_uint (Pos.to_uint p) = NilEmpty.string_of_uint (Pos.to_uint p))
    as -> by (destruct (Pos.to_uint p); [congruence | reflexivity ..]).
  destruct (NilEmpty.string_of_uint (Pos.to_uint p)) as [|c r] eqn:E.
  - destruct (Pos.to_uint p); [congruence | discriminate ..].
  - exists c, r. repeat split; auto. simpl in Hd. now apply andb_true_iff in Hd as [? _].
Qed.

Lemma int_of_text z : Py.int_of_string (of_Z z) = Ok z.
Proof.
  destruct z as [|p|p]; [reflexivity|..]; unfold of_Z;
    cbn [Z.to_int NilZero.string_of_int];
    destruct (positive_text p) as (c & r & -> & Hc & Hd & Hp);
    destruct (digit_no_sign c Hc) as [Hm Hpl]; unfold Py.int_of_string.
  - rewrite (numeric_lstrip_digits _ Hd), (numeric_rstrip_digits _ Hd).
    cbn [Py.sign]. rewrite Hm, Hpl, Hp. now rewrite digits_of_positive.
  - cbn [Py.numeric_lstrip]. replace (Py.is_numeric_space "-") with false by reflexivity.
    rewrite numeric_rstrip_cons, (numeric_rstrip_digits _ Hd).
    cbn [Py.sign]. replace (code "-" =? 45)%N with true by reflexivity.
    rewrite Hp. now rewrite digits_of_positive.
Qed.

Lemma round_integer neg p :
  Py.round_decimal neg (Z.pos p) (0 - Z.of_nat (length (@nil Z)))
  = binary_normalize prec emax (if neg then Z.neg p else Z.pos p) 0 false.
Proof.
  change (0 - Z.of_nat (length (@nil Z)))%Z with 0%Z. unfold Py.round_decimal.
  change (Z.pos p =? 0)%Z with false. change (0 <=? 0)%Z with true. cbv iota.
  rewrite Z.pow_0_r, Z.mul_1_r. now destruct neg.
Qed.

Lemma float_of_text z :
  Py.float_of_string (of_Z z) = Ok (SF2Prim (binary_normalize prec emax z 0 false)).
Proof.
  destruct z as [|p|p]; [reflexivity|..]; unfold of_Z;
    cbn [Z.to_int NilZero.string_of_int];
    destruct (positive_text p) as (c & r & -> & Hc & Hd & Hp);
    destruct (digit_no_sign c Hc) as [Hm Hpl];
    destruct (digit_no_word c r Hc) as (Hi & Hy & Hn); unfold Py.float_of_string.
  - rewrite (numeric_lstrip_digits _ Hd), (numeric_rstrip_digits _ Hd).
    cbn [Py.sign]. rewrite Hm, Hpl, Hi, Hy, Hn. cbn [orb].
    unfold Py.number. rewrite Hp. cbn [Py.exponent]. rewrite app_nil_r, digits_of_positive.
    now rewrite round_integer.
  - cbn [Py.numeric_lstrip]. replace (Py.is_numeric_space "-") with false by reflexivity.
    rewrite numeric_rstrip_cons, (numeric_rstrip_digits _ Hd).
    cbn [Py.sign]. replace (code "-" =? 45)%N with true by reflexivity.
    rewrite Hi, Hy, Hn. cbn [orb].
    unfold Py.number. rewrite Hp. cbn [Py.exponent]. rewrite app_nil_r, digits_of_positive.
    now rewrite round_integer.
Qed.

Lemma of_Z_not_empty z : Py.truthy (VStr (of_Z z)) = true.
Proof.
  destruct z as [|p|p]; [reflexivity|..]; unfold of_Z; cbn [Z.to_int NilZero.string_of_int].
  - now destruct (positive_text p) as (c & r & -> & _).
  - reflexivity.
Qed.

Lemma overflow_sign sx m e s :
  binary_round prec emax sx m e = S754_infinity s -> s = sx.
Proof.
  unfold binary_round, binary_round_aux.
  destruct (shl_align _ _ _) as [mz ez].
  destruct (shr_fexp _ _ _ _ _) as [m1 e1].
  destruct (shr_fexp _ _ _ _ _) as [m2 e2].
  destruct (shr_m m2); [discriminate| |discriminate].
  destruct (_ <=? _)%Z; [discriminate|]. congruence.
Qed.

End NumericText.

(** A number given as the decimal text of an integer is read as the
    integer is: a flag as that integer (for text of at most 4300 digits,
    which [int] converts), an amount as the float nearest to it.  The one
    difference is an integer too large for a float: as an integer it
    raises [OverflowError], as text it is read as an infinity. *)
Theorem integer_text_reads_as_the_integer (z : Z) :
  (within_str_digits z -> flag (VStr (Text.of_Z z)) = Ok z)
  /\ flag (VInt z) = Ok z
  /\ (forall f, numeric (VInt z) = Ok f -> numeric (VStr (Text.of_Z z)) = Ok f)
  /\ (numeric (VInt z) = Raise OverflowError ->
      numeric (VStr (Text.of_Z z)) = Ok (if (z <? 0)%Z then neg_infinity else infinity)).
Proof.
  assert (numeric (VStr (Text.of_Z z))
          = Ok (SF2Prim (binary_normalize prec emax z 0 false))) as Htext.
  { unfold numeric, Py.or_. rewrite of_Z_not_empty. apply float_of_text. }
  assert (numeric (VInt z) = Py.float_of_Z z) as Hint.
  { unfold numeric, Py.or_. now destruct z. }
  repeat apply conj.
  - intros _. unfold flag, Py.or_. rewrite of_Z_not_empty. apply int_of_text.
  - unfold flag, Py.or_. now destruct z.
  - intros f. rewrite Hint, Htext. unfold Py.float_of_Z.
    destruct (binary_normalize prec emax z 0 false); congruence.
  - rewrite Hint, Htext. unfold Py.float_of_Z.
    destruct (binary_normalize prec emax z 0 false) eqn:E; try discriminate.
    intros _. destruct z as [|p|p]; [discriminate|..]; simpl in E;
      apply overflow_sign in E; subst; reflexivity.
Qed.

Lemma integer_text_reads_as_the_integer_witness :
  flag (VStr "1") = Ok 1%Z
  /\ numeric (VStr "42") = Ok 42%float
  /\ numeric (VInt (10 ^ 400)) = Raise OverflowError
  /\ numeric (VStr (Text.of_Z (10 ^ 400))) = Ok infinity.
Proof.
  assert (numeric (VInt (10 ^ 400)) = Raise OverflowError) as Hbig
    by (vm_compute; reflexivity).
  split; [|split; [|split; [exact Hbig|]]].
  - apply (proj1 (integer_text_reads_as_the_integer 1)). vm_compute. reflexivity.
  - apply (proj1 (proj2 (proj2 (integer_text_reads_as_the_integer 42)))).
    vm_compute. reflexivity.
  - exact (proj2 (proj2 (proj2 (integer_text_reads_as_the_integer (10 ^ 400)))) Hbig).
Defined.
